(** * Motor actions and their JSON codec

    A shallow embedding of [tbp/monty/frameworks/actions/actions.py]:
    the [Action] class hierarchy (fourteen concrete classes), the
    name derivation [Action._camel_case_to_snake_case], the generator
    [Action.__iter__], [ActionJSONEncoder.default] and
    [ActionJSONDecoder.object_hook].

    Python objects are dynamically typed, so an instance is modelled as
    its class together with its attribute dictionary, and attribute
    values are drawn from a small universe of Python values.  Raised
    exceptions are modelled by an error monad. *)

From Stdlib Require Import List String Ascii Bool Arith ZArith PrimFloat.
From Stdlib Require Import Permutation.
Import ListNotations.
Open Scope string_scope.
Open Scope list_scope.

(** ** Python values *)

(** The values a member of a flat JSON object can hold once parsed
    ([None], [bool], [int], [float], [str], [list]), and tuples, which
    the decoder makes out of lists. *)
#[warnings="-register-all"]
Inductive pyval : Type :=
| PNone
| PBool (b : bool)
| PInt (z : Z)
| PFloat (f : float)
| PStr (s : string)
| PList (items : list pyval)
| PTuple (items : list pyval).

(** What an attribute of an action can hold: a value as above or a
    [numpy.ndarray].  The module only ever calls [tolist()] on an
    array, so an array is given by what that call returns. *)
Inductive attr : Type :=
| Plain (v : pyval)
| Ndarray (tolist : pyval).

(** A [dict]: insertion ordered, string keys.  Kept as an association
    list because the order of the keys is observable in the encoder. *)
Definition dictionary (V : Type) : Type := list (string * V).

(** The dictionary [json] parses an object into, or writes one from. *)
Definition pydict : Type := dictionary pyval.

(** ** Exceptions *)

Inductive value_error : Type :=
| MissingActionKey
    (* "Invalid action object: missing 'action' key." *)
| UnknownAction (action : pyval)
    (* f"Invalid action object: unknown action '{action}'." *).

Inductive type_error : Type :=
| NotIterable (v : pyval)
    (* tuple(v) on a value that has no __iter__ *)
| NotJSONSerializable (v : attr)
    (* JSONEncoder.default *).

Inductive exn : Type :=
| ValueError (e : value_error)
| KeyError (key : string)
| TypeError (e : type_error).

Inductive result (A : Type) : Type :=
| Ok (a : A)
| Raise (e : exn).
Arguments Ok {A} a.
Arguments Raise {A} e.

Definition bind {A B : Type} (m : result A) (k : A -> result B) : result B :=
  match m with
  | Ok a => k a
  | Raise e => Raise e
  end.

Notation "x <- m ;; k" := (bind m (fun x => k))
  (at level 61, m at next level, right associativity).

Definition fmap {A B : Type} (f : A -> B) (m : result A) : result B :=
  x <- m ;; Ok (f x).

(** ** Builtins used by the module *)

Section Dictionary.
Context {V : Type}.

(** [key in d] *)
Fixpoint contains (d : dictionary V) (key : string) : bool :=
  match d with
  | [] => false
  | (k, _) :: r => if (k =? key)%string then true else contains r key
  end.

(** [d[key]] *)
Fixpoint getitem (d : dictionary V) (key : string) : result V :=
  match d with
  | [] => Raise (KeyError key)
  | (k, v) :: r => if (k =? key)%string then Ok v else getitem r key
  end.

(** [d[key] = value]: an existing key keeps its position. *)
Fixpoint setitem (d : dictionary V) (key : string) (value : V)
    : dictionary V :=
  match d with
  | [] => [(key, value)]
  | (k, v) :: r =>
      if (k =? key)%string then (k, value) :: r
      else (k, v) :: setitem r key value
  end.

(** [d.items()] *)
Definition items (d : dictionary V) : list (string * V) := d.

(** [dict(pairs)] for an iterable of key-value pairs. *)
Definition dict (pairs : list (string * V)) : dictionary V :=
  fold_left (fun o kv => setitem o (fst kv) (snd kv)) pairs [].

End Dictionary.

(** The one-character strings a [str] iterates over. *)
Fixpoint chars (s : string) : list pyval :=
  match s with
  | EmptyString => []
  | String c r => PStr (String c EmptyString) :: chars r
  end.

(** [tuple(v)] *)
Definition tuple (v : pyval) : result pyval :=
  match v with
  | PList l | PTuple l => Ok (PTuple l)
  | PStr s => Ok (PTuple (chars s))
  | PNone | PBool _ | PInt _ | PFloat _ => Raise (TypeError (NotIterable v))
  end.

(** Whether [tuple(v)] returns. *)
Definition iterable (v : pyval) : bool :=
  match tuple v with
  | Ok _ => true
  | Raise _ => false
  end.

(** [v == s] for a [str] [s]. *)
Definition eq_str (v : pyval) (s : string) : bool :=
  match v with
  | PStr s' => (s' =? s)%string
  | _ => false
  end.

(** [str.isupper] and [str.lower] on one character (ASCII range, which
    is where class names live). *)
Definition isupper (c : ascii) : bool :=
  ((65 <=? nat_of_ascii c)%nat && (nat_of_ascii c <=? 90)%nat)%bool.

Definition lower (c : ascii) : ascii :=
  if isupper c then ascii_of_nat (nat_of_ascii c + 32) else c.

(** [s.lstrip(c)] for a single character [c]. *)
Fixpoint lstrip (s : string) (c : ascii) : string :=
  match s with
  | EmptyString => EmptyString
  | String x r => if (x =? c)%char then lstrip r c else s
  end.

(** ** The action classes *)

Inductive action_class : Type :=
| LookDown | LookUp | MoveForward | MoveTangentially
| OrientHorizontal | OrientVertical
| SetAgentPitch | SetAgentPose | SetSensorPitch | SetSensorPose
| SetSensorRotation | SetYaw | TurnLeft | TurnRight.

Definition all_classes : list action_class :=
  [LookDown; LookUp; MoveForward; MoveTangentially;
   OrientHorizontal; OrientVertical;
   SetAgentPitch; SetAgentPose; SetSensorPitch; SetSensorPose;
   SetSensorRotation; SetYaw; TurnLeft; TurnRight].

(** [cls.__name__] *)
Definition __name__ (cls : action_class) : string :=
  match cls with
  | LookDown => "LookDown"
  | LookUp => "LookUp"
  | MoveForward => "MoveForward"
  | MoveTangentially => "MoveTangentially"
  | OrientHorizontal => "OrientHorizontal"
  | OrientVertical => "OrientVertical"
  | SetAgentPitch => "SetAgentPitch"
  | SetAgentPose => "SetAgentPose"
  | SetSensorPitch => "SetSensorPitch"
  | SetSensorPose => "SetSensorPose"
  | SetSensorRotation => "SetSensorRotation"
  | SetYaw => "SetYaw"
  | TurnLeft => "TurnLeft"
  | TurnRight => "TurnRight"
  end.

(** [Action._camel_case_to_snake_case] *)
Fixpoint snake_join (name : string) : string :=
  match name with
  | EmptyString => EmptyString
  | String char r =>
      if isupper char then String "_" (String (lower char) (snake_join r))
      else String char (snake_join r)
  end.

Definition _camel_case_to_snake_case (name : string) : string :=
  lstrip (snake_join name) "_".

(** [Action.action_name] *)
Definition action_name (cls : action_class) : string :=
  _camel_case_to_snake_case (__name__ cls).

(** ** Instances *)

(** An object whose class derives from [Action]: its class and its
    attribute dictionary. *)
Record Action : Type := mkAction {
  __class__ : action_class;
  __dict__ : dictionary attr
}.

(** [object.__new__(cls)] *)
Definition new (cls : action_class) : Action := mkAction cls [].

(** [self.key = value] *)
Definition setattr (self : Action) (key : string) (value : attr) : Action :=
  mkAction (__class__ self) (setitem (__dict__ self) key value).

(** [self.key] for an instance attribute *)
Definition getattr (self : Action) (key : string) : result attr :=
  getitem (__dict__ self) key.

(** The property [Action.name] *)
Definition name (self : Action) : string :=
  action_name (__class__ self).

(** [Action.__init__] *)
Definition Action__init__ (self : Action) (agent_id : attr) : Action :=
  setattr self "agent_id" agent_id.

(** A parameter with a default value: [None] when the caller omits it. *)
Definition or_default (arg : option attr) (dflt : attr) : attr :=
  match arg with
  | Some v => v
  | None => dflt
  end.

(** The constructors [Cls(...)]: allocation followed by [Cls.__init__],
    attribute assignments in the order of the source. *)
Definition LookDown__init__
    (agent_id rotation_degrees : attr) (constraint_degrees : option attr)
    : Action :=
  let constraint_degrees := or_default constraint_degrees (Plain (PFloat 90)) in
  let self := Action__init__ (new LookDown) agent_id in
  let self := setattr self "constraint_degrees" constraint_degrees in
  let self := setattr self "rotation_degrees" rotation_degrees in
  self.

Definition LookUp__init__
    (agent_id rotation_degrees : attr) (constraint_degrees : option attr)
    : Action :=
  let constraint_degrees := or_default constraint_degrees (Plain (PFloat 90)) in
  let self := Action__init__ (new LookUp) agent_id in
  let self := setattr self "constraint_degrees" constraint_degrees in
  let self := setattr self "rotation_degrees" rotation_degrees in
  self.

Definition MoveForward__init__ (agent_id distance : attr) : Action :=
  let self := Action__init__ (new MoveForward) agent_id in
  let self := setattr self "distance" distance in
  self.

Definition MoveTangentially__init__
    (agent_id distance direction : attr) : Action :=
  let self := Action__init__ (new MoveTangentially) agent_id in
  let self := setattr self "distance" distance in
  let self := setattr self "direction" direction in
  self.

Definition OrientHorizontal__init__
    (agent_id rotation_degrees left_distance forward_distance : attr)
    : Action :=
  let self := Action__init__ (new OrientHorizontal) agent_id in
  let self := setattr self "rotation_degrees" rotation_degrees in
  let self := setattr self "left_distance" left_distance in
  let self := setattr self "forward_distance" forward_distance in
  self.

Definition OrientVertical__init__
    (agent_id rotation_degrees down_distance forward_distance : attr)
    : Action :=
  let self := Action__init__ (new OrientVertical) agent_id in
  let self := setattr self "rotation_degrees" rotation_degrees in
  let self := setattr self "down_distance" down_distance in
  let self := setattr self "forward_distance" forward_distance in
  self.

Definition SetAgentPitch__init__ (agent_id pitch_degrees : attr) : Action :=
  let self := Action__init__ (new SetAgentPitch) agent_id in
  let self := setattr self "pitch_degrees" pitch_degrees in
  self.

Definition SetAgentPose__init__
    (agent_id location rotation_quat : attr) : Action :=
  let self := Action__init__ (new SetAgentPose) agent_id in
  let self := setattr self "location" location in
  let self := setattr self "rotation_quat" rotation_quat in
  self.

Definition SetSensorPitch__init__ (agent_id pitch_degrees : attr) : Action :=
  let self := Action__init__ (new SetSensorPitch) agent_id in
  let self := setattr self "pitch_degrees" pitch_degrees in
  self.

Definition SetSensorPose__init__
    (agent_id location rotation_quat : attr) : Action :=
  let self := Action__init__ (new SetSensorPose) agent_id in
  let self := setattr self "location" location in
  let self := setattr self "rotation_quat" rotation_quat in
  self.

Definition SetSensorRotation__init__
    (agent_id rotation_quat : attr) : Action :=
  let self := Action__init__ (new SetSensorRotation) agent_id in
  let self := setattr self "rotation_quat" rotation_quat in
  self.

Definition SetYaw__init__ (agent_id rotation_degrees : attr) : Action :=
  let self := Action__init__ (new SetYaw) agent_id in
  let self := setattr self "rotation_degrees" rotation_degrees in
  self.

Definition TurnLeft__init__ (agent_id rotation_degrees : attr) : Action :=
  let self := Action__init__ (new TurnLeft) agent_id in
  let self := setattr self "rotation_degrees" rotation_degrees in
  self.

Definition TurnRight__init__ (agent_id rotation_degrees : attr) : Action :=
  let self := Action__init__ (new TurnRight) agent_id in
  let self := setattr self "rotation_degrees" rotation_degrees in
  self.

(** [Action.__iter__]: the pairs the generator yields, in order. *)
Definition __iter__ (self : Action) : list (string * attr) :=
  ("action", Plain (PStr (name self)))
    :: filter (fun kv => negb (fst kv =? "name")) (items (__dict__ self)).

(** ** Encoder *)

(** What [ActionJSONEncoder.default] can be handed: an action, or any
    other object the [json] machinery could not serialize by itself. *)
Inductive pyobj : Type :=
| Obj (a : Action)
| Other (v : attr).

(** [ActionJSONEncoder.default] *)
Definition default (obj : pyobj) : result pydict :=
  match obj with
  | Obj a =>
      Ok (fold_left
            (fun o kv =>
               let '(key, value) := kv in
               match value with
               | Ndarray tolist => setitem o key tolist
               | Plain value => setitem o key value
               end)
            (items (dict (__iter__ a))) [])
  | Other v => Raise (TypeError (NotJSONSerializable v))
  end.

(** ** Decoder *)

(** [ActionJSONDecoder.object_hook] *)
Definition object_hook (obj : pydict) : result Action :=
  if negb (contains obj "action") then
    Raise (ValueError MissingActionKey)
  else
    action <- getitem obj "action" ;;
    if eq_str action (action_name LookDown) then
      agent_id <- getitem obj "agent_id" ;;
      rotation_degrees <- getitem obj "rotation_degrees" ;;
      constraint_degrees <- getitem obj "constraint_degrees" ;;
      Ok (LookDown__init__ (Plain agent_id) (Plain rotation_degrees)
            (Some (Plain constraint_degrees)))
    else if eq_str action (action_name LookUp) then
      agent_id <- getitem obj "agent_id" ;;
      rotation_degrees <- getitem obj "rotation_degrees" ;;
      constraint_degrees <- getitem obj "constraint_degrees" ;;
      Ok (LookUp__init__ (Plain agent_id) (Plain rotation_degrees)
            (Some (Plain constraint_degrees)))
    else if eq_str action (action_name MoveForward) then
      agent_id <- getitem obj "agent_id" ;;
      distance <- getitem obj "distance" ;;
      Ok (MoveForward__init__ (Plain agent_id) (Plain distance))
    else if eq_str action (action_name MoveTangentially) then
      agent_id <- getitem obj "agent_id" ;;
      distance <- getitem obj "distance" ;;
      direction <- (v <- getitem obj "direction" ;; tuple v) ;;
      Ok (MoveTangentially__init__
            (Plain agent_id) (Plain distance) (Plain direction))
    else if eq_str action (action_name OrientHorizontal) then
      agent_id <- getitem obj "agent_id" ;;
      rotation_degrees <- getitem obj "rotation_degrees" ;;
      left_distance <- getitem obj "left_distance" ;;
      forward_distance <- getitem obj "forward_distance" ;;
      Ok (OrientHorizontal__init__
            (Plain agent_id) (Plain rotation_degrees)
            (Plain left_distance) (Plain forward_distance))
    else if eq_str action (action_name OrientVertical) then
      agent_id <- getitem obj "agent_id" ;;
      rotation_degrees <- getitem obj "rotation_degrees" ;;
      down_distance <- getitem obj "down_distance" ;;
      forward_distance <- getitem obj "forward_distance" ;;
      Ok (OrientVertical__init__
            (Plain agent_id) (Plain rotation_degrees)
            (Plain down_distance) (Plain forward_distance))
    else if eq_str action (action_name SetAgentPitch) then
      agent_id <- getitem obj "agent_id" ;;
      pitch_degrees <- getitem obj "pitch_degrees" ;;
      Ok (SetAgentPitch__init__ (Plain agent_id) (Plain pitch_degrees))
    else if eq_str action (action_name SetAgentPose) then
      agent_id <- getitem obj "agent_id" ;;
      location <- (v <- getitem obj "location" ;; tuple v) ;;
      rotation_quat <- (v <- getitem obj "rotation_quat" ;; tuple v) ;;
      Ok (SetAgentPose__init__
            (Plain agent_id) (Plain location) (Plain rotation_quat))
    else if eq_str action (action_name SetSensorPitch) then
      agent_id <- getitem obj "agent_id" ;;
      pitch_degrees <- getitem obj "pitch_degrees" ;;
      Ok (SetSensorPitch__init__ (Plain agent_id) (Plain pitch_degrees))
    else if eq_str action (action_name SetSensorPose) then
      agent_id <- getitem obj "agent_id" ;;
      location <- (v <- getitem obj "location" ;; tuple v) ;;
      rotation_quat <- (v <- getitem obj "rotation_quat" ;; tuple v) ;;
      Ok (SetSensorPose__init__
            (Plain agent_id) (Plain location) (Plain rotation_quat))
    else if eq_str action (action_name SetSensorRotation) then
      agent_id <- getitem obj "agent_id" ;;
      rotation_quat <- (v <- getitem obj "rotation_quat" ;; tuple v) ;;
      Ok (SetSensorRotation__init__ (Plain agent_id) (Plain rotation_quat))
    else if eq_str action (action_name SetYaw) then
      agent_id <- getitem obj "agent_id" ;;
      rotation_degrees <- getitem obj "rotation_degrees" ;;
      Ok (SetYaw__init__ (Plain agent_id) (Plain rotation_degrees))
    else if eq_str action (action_name TurnLeft) then
      agent_id <- getitem obj "agent_id" ;;
      rotation_degrees <- getitem obj "rotation_degrees" ;;
      Ok (TurnLeft__init__ (Plain agent_id) (Plain rotation_degrees))
    else if eq_str action (action_name TurnRight) then
      agent_id <- getitem obj "agent_id" ;;
      rotation_degrees <- getitem obj "rotation_degrees" ;;
      Ok (TurnRight__init__ (Plain agent_id) (Plain rotation_degrees))
    else
      Raise (ValueError (UnknownAction action)).

(** ** The enclosing [json] machinery

    [ActionJSONEncoder] and [ActionJSONDecoder] are hooks of Python's
    [json] module: the dictionary returned by [default] is written out
    as text by [JSONEncoder] and the dictionary handed to [object_hook]
    is the one [JSONDecoder] parsed.  On the values of a flat object
    this leaves scalars alone and turns tuples and lists into lists. *)
Fixpoint json_value (v : pyval) : pyval :=
  match v with
  | PList l | PTuple l => PList (map json_value l)
  | PNone | PBool _ | PInt _ | PFloat _ | PStr _ => v
  end.

Definition json_object (o : pydict) : pydict :=
  map (fun kv => (fst kv, json_value (snd kv))) o.

(** [decode(encode(a))], hook to hook, and through the text form. *)
Definition decode_encode (a : Action) : result Action :=
  o <- default (Obj a) ;; object_hook o.

Definition decode_encode_text (a : Action) : result Action :=
  o <- default (Obj a) ;; object_hook (json_object o).

(** ** The name derivation as the design words it

    "Insert a separator before every uppercase letter in the identifier
    except a leading one, lowercase every letter, join with
    underscores."  Kept apart from [_camel_case_to_snake_case], to be
    compared with it. *)
Fixpoint separate_and_lower (rest : string) : string :=
  match rest with
  | EmptyString => EmptyString
  | String c r =>
      if isupper c then String "_" (String (lower c) (separate_and_lower r))
      else String (lower c) (separate_and_lower r)
  end.

Definition derive_name (identifier : string) : string :=
  match identifier with
  | EmptyString => EmptyString
  | String c r => String (lower c) (separate_and_lower r)
  end.

(** ** Signatures *)

(** The parameters of [cls.__init__] after [self] and [agent_id], in
    the order of the signature.  This is also the order in which
    [object_hook] reads them, and the order of the data-model table. *)
Definition parameters (cls : action_class) : list string :=
  match cls with
  | LookDown | LookUp => ["rotation_degrees"; "constraint_degrees"]
  | MoveForward => ["distance"]
  | MoveTangentially => ["distance"; "direction"]
  | OrientHorizontal => ["rotation_degrees"; "left_distance"; "forward_distance"]
  | OrientVertical => ["rotation_degrees"; "down_distance"; "forward_distance"]
  | SetAgentPitch | SetSensorPitch => ["pitch_degrees"]
  | SetAgentPose | SetSensorPose => ["location"; "rotation_quat"]
  | SetSensorRotation => ["rotation_quat"]
  | SetYaw | TurnLeft | TurnRight => ["rotation_degrees"]
  end.

(** The attributes [cls.__init__] assigns after [agent_id], in the
    order of the assignments in its body. *)
Definition assigned (cls : action_class) : list string :=
  match cls with
  | LookDown => ["constraint_degrees"; "rotation_degrees"]
  | LookUp => ["constraint_degrees"; "rotation_degrees"]
  | MoveForward => ["distance"]
  | MoveTangentially => ["distance"; "direction"]
  | OrientHorizontal => ["rotation_degrees"; "left_distance"; "forward_distance"]
  | OrientVertical => ["rotation_degrees"; "down_distance"; "forward_distance"]
  | SetAgentPitch => ["pitch_degrees"]
  | SetAgentPose => ["location"; "rotation_quat"]
  | SetSensorPitch => ["pitch_degrees"]
  | SetSensorPose => ["location"; "rotation_quat"]
  | SetSensorRotation => ["rotation_quat"]
  | SetYaw => ["rotation_degrees"]
  | TurnLeft => ["rotation_degrees"]
  | TurnRight => ["rotation_degrees"]
  end.

(** The keys [object_hook] indexes once it has dispatched on [cls]. *)
Definition required_keys (cls : action_class) : list string :=
  "agent_id" :: parameters cls.

(** The first key of [keys] that [obj] lacks. *)
Definition first_missing (obj : pydict) (keys : list string) : option string :=
  find (fun k => negb (contains obj k)) keys.

(** [obj] without the keys that decoding [cls] does not read. *)
Definition without_extras (cls : action_class) (obj : pydict) : pydict :=
  filter (fun kv => existsb (String.eqb (fst kv)) ("action" :: required_keys cls))
         obj.

(** The keys whose value [object_hook] passes through [tuple]. *)
Definition sequence_key (key : string) : bool :=
  existsb (String.eqb key) ["direction"; "location"; "rotation_quat"].

(** [VectorXYZ] and [QuaternionWXYZ] *)
Definition VectorXYZ : Type := float * float * float.
Definition QuaternionWXYZ : Type := float * float * float * float.

Definition of_vector (v : VectorXYZ) : attr :=
  let '(x, y, z) := v in Plain (PTuple [PFloat x; PFloat y; PFloat z]).

Definition of_quaternion (q : QuaternionWXYZ) : attr :=
  let '(w, x, y, z) := q in
  Plain (PTuple [PFloat w; PFloat x; PFloat y; PFloat z]).

Definition of_str (s : string) : attr := Plain (PStr s).
Definition of_float (f : float) : attr := Plain (PFloat f).

(** What the encoder stores for an attribute value. *)
Definition encoded (value : attr) : pyval :=
  match value with
  | Ndarray tolist => tolist
  | Plain v => v
  end.

(** Instances obtained by calling a constructor, whatever the arguments. *)
Inductive constructed : Action -> Prop :=
| c_LookDown agent_id rotation_degrees constraint_degrees :
    constructed (LookDown__init__ agent_id rotation_degrees constraint_degrees)
| c_LookUp agent_id rotation_degrees constraint_degrees :
    constructed (LookUp__init__ agent_id rotation_degrees constraint_degrees)
| c_MoveForward agent_id distance :
    constructed (MoveForward__init__ agent_id distance)
| c_MoveTangentially agent_id distance direction :
    constructed (MoveTangentially__init__ agent_id distance direction)
| c_OrientHorizontal agent_id rotation_degrees left_distance forward_distance :
    constructed (OrientHorizontal__init__
                   agent_id rotation_degrees left_distance forward_distance)
| c_OrientVertical agent_id rotation_degrees down_distance forward_distance :
    constructed (OrientVertical__init__
                   agent_id rotation_degrees down_distance forward_distance)
| c_SetAgentPitch agent_id pitch_degrees :
    constructed (SetAgentPitch__init__ agent_id pitch_degrees)
| c_SetAgentPose agent_id location rotation_quat :
    constructed (SetAgentPose__init__ agent_id location rotation_quat)
| c_SetSensorPitch agent_id pitch_degrees :
    constructed (SetSensorPitch__init__ agent_id pitch_degrees)
| c_SetSensorPose agent_id location rotation_quat :
    constructed (SetSensorPose__init__ agent_id location rotation_quat)
| c_SetSensorRotation agent_id rotation_quat :
    constructed (SetSensorRotation__init__ agent_id rotation_quat)
| c_SetYaw agent_id rotation_degrees :
    constructed (SetYaw__init__ agent_id rotation_degrees)
| c_TurnLeft agent_id rotation_degrees :
    constructed (TurnLeft__init__ agent_id rotation_degrees)
| c_TurnRight agent_id rotation_degrees :
    constructed (TurnRight__init__ agent_id rotation_degrees).

(** Instances whose arguments have the annotated types: [str] for
    [agent_id], [float] for degrees and distances, [VectorXYZ] and
    [QuaternionWXYZ] tuples for directions, locations and rotations. *)
Inductive well_typed : Action -> Prop :=
| wt_LookDown (agent_id : string) (rotation_degrees : float)
    (constraint_degrees : option float) :
    well_typed (LookDown__init__ (of_str agent_id) (of_float rotation_degrees)
                  (option_map of_float constraint_degrees))
| wt_LookUp (agent_id : string) (rotation_degrees : float)
    (constraint_degrees : option float) :
    well_typed (LookUp__init__ (of_str agent_id) (of_float rotation_degrees)
                  (option_map of_float constraint_degrees))
| wt_MoveForward (agent_id : string) (distance : float) :
    well_typed (MoveForward__init__ (of_str agent_id) (of_float distance))
| wt_MoveTangentially (agent_id : string) (distance : float)
    (direction : VectorXYZ) :
    well_typed (MoveTangentially__init__
                  (of_str agent_id) (of_float distance) (of_vector direction))
| wt_OrientHorizontal (agent_id : string)
    (rotation_degrees left_distance forward_distance : float) :
    well_typed (OrientHorizontal__init__
                  (of_str agent_id) (of_float rotation_degrees)
                  (of_float left_distance) (of_float forward_distance))
| wt_OrientVertical (agent_id : string)
    (rotation_degrees down_distance forward_distance : float) :
    well_typed (OrientVertical__init__
                  (of_str agent_id) (of_float rotation_degrees)
                  (of_float down_distance) (of_float forward_distance))
| wt_SetAgentPitch (agent_id : string) (pitch_degrees : float) :
    well_typed (SetAgentPitch__init__ (of_str agent_id) (of_float pitch_degrees))
| wt_SetAgentPose (agent_id : string) (location : VectorXYZ)
    (rotation_quat : QuaternionWXYZ) :
    well_typed (SetAgentPose__init__
                  (of_str agent_id) (of_vector location)
                  (of_quaternion rotation_quat))
| wt_SetSensorPitch (agent_id : string) (pitch_degrees : float) :
    well_typed (SetSensorPitch__init__ (of_str agent_id) (of_float pitch_degrees))
| wt_SetSensorPose (agent_id : string) (location : VectorXYZ)
    (rotation_quat : QuaternionWXYZ) :
    well_typed (SetSensorPose__init__
                  (of_str agent_id) (of_vector location)
                  (of_quaternion rotation_quat))
| wt_SetSensorRotation (agent_id : string) (rotation_quat : QuaternionWXYZ) :
    well_typed (SetSensorRotation__init__
                  (of_str agent_id) (of_quaternion rotation_quat))
| wt_SetYaw (agent_id : string) (rotation_degrees : float) :
    well_typed (SetYaw__init__ (of_str agent_id) (of_float rotation_degrees))
| wt_TurnLeft (agent_id : string) (rotation_degrees : float) :
    well_typed (TurnLeft__init__ (of_str agent_id) (of_float rotation_degrees))
| wt_TurnRight (agent_id : string) (rotation_degrees : float) :
    well_typed (TurnRight__init__ (of_str agent_id) (of_float rotation_degrees)).

(** ** Sampling and actuation

    [ActionSampler] and [Actuator] live in other modules.  All this
    module does with them is call one method, by name, on the object it
    is handed; such an object is therefore given by the outcome of
    calling the method of a given name on a given argument. *)
Section Collaborators.
Context {R : Type}.

(** [cls.sample(agent_id, sampler)] *)
Definition sample (cls : action_class) (agent_id : attr)
    (sampler : string -> attr -> R) : R :=
  match cls with
  | LookDown => sampler "sample_look_down" agent_id
  | LookUp => sampler "sample_look_up" agent_id
  | MoveForward => sampler "sample_move_forward" agent_id
  | MoveTangentially => sampler "sample_move_tangentially" agent_id
  | OrientHorizontal => sampler "sample_orient_horizontal" agent_id
  | OrientVertical => sampler "sample_orient_vertical" agent_id
  | SetAgentPitch => sampler "sample_set_agent_pitch" agent_id
  | SetAgentPose => sampler "sample_set_agent_pose" agent_id
  | SetSensorPitch => sampler "sample_set_sensor_pitch" agent_id
  | SetSensorPose => sampler "sample_set_sensor_pose" agent_id
  | SetSensorRotation => sampler "sample_set_sensor_rotation" agent_id
  | SetYaw => sampler "sample_set_yaw" agent_id
  | TurnLeft => sampler "sample_turn_left" agent_id
  | TurnRight => sampler "sample_turn_right" agent_id
  end.

(** [self.act(actuator)], resolved on the class of [self]. *)
Definition act (self : Action) (actuator : string -> Action -> R) : R :=
  match __class__ self with
  | LookDown => actuator "actuate_look_down" self
  | LookUp => actuator "actuate_look_up" self
  | MoveForward => actuator "actuate_move_forward" self
  | MoveTangentially => actuator "actuate_move_tangentially" self
  | OrientHorizontal => actuator "actuate_orient_horizontal" self
  | OrientVertical => actuator "actuate_orient_vertical" self
  | SetAgentPitch => actuator "actuate_set_agent_pitch" self
  | SetAgentPose => actuator "actuate_set_agent_pose" self
  | SetSensorPitch => actuator "actuate_set_sensor_pitch" self
  | SetSensorPose => actuator "actuate_set_sensor_pose" self
  | SetSensorRotation => actuator "actuate_set_sensor_rotation" self
  | SetYaw => actuator "actuate_set_yaw" self
  | TurnLeft => actuator "actuate_turn_left" self
  | TurnRight => actuator "actuate_turn_right" self
  end.

End Collaborators.

(** ** Predicates on names *)

(** Whether some character of [s] is an uppercase letter. *)
Fixpoint any_upper (s : string) : bool :=
  match s with
  | EmptyString => false
  | String c r => isupper c || any_upper r
  end.

(** [str.isascii]: every character is below 128.  These are the
    strings on which [isupper] and [lower] above are Python's
    [str.isupper] and [str.lower]. *)
Fixpoint isascii (s : string) : bool :=
  match s with
  | EmptyString => true
  | String c r => (nat_of_ascii c <? 128)%nat && isascii r
  end.

(** * Properties *)

(** ** Name derivation *)

Lemma all_classes_complete (cls : action_class) : In cls all_classes.
Proof. destruct cls; simpl; tauto. Qed.

Lemma lower_not_upper (c : ascii) : isupper c = false -> lower c = c.
Proof. unfold lower. now intros ->. Qed.

Lemma lower_upper_not_underscore (c : ascii) :
  isupper c = true -> (lower c =? "_")%char = false.
Proof.
  destruct c as [[] [] [] [] [] [] [] []]; vm_compute;
    solve [reflexivity | discriminate].
Qed.

Lemma separate_and_lower_snake_join (rest : string) :
  separate_and_lower rest = snake_join rest.
Proof.
  induction rest as [| c r IH]; simpl; [reflexivity |].
  destruct (isupper c) eqn:E; rewrite IH; [reflexivity |].
  now rewrite lower_not_upper.
Qed.

(** On an identifier that does not begin with an underscore the code
    computes what the design's wording describes. *)
Lemma camel_case_to_snake_case_derive_name (c : ascii) (r : string) :
  (c =? "_")%char = false ->
  _camel_case_to_snake_case (String c r) = derive_name (String c r).
Proof.
  intro Hc. unfold _camel_case_to_snake_case, derive_name.
  rewrite separate_and_lower_snake_join. cbn [snake_join].
  destruct (isupper c) eqn:E.
  - cbn [lstrip]. rewrite Ascii.eqb_refl. cbn [lstrip].
    now rewrite lower_upper_not_underscore.
  - cbn [lstrip]. rewrite Hc. now rewrite lower_not_upper.
Qed.

(** C3. Name stability: [action_name] sends each class identifier to
    its lowercase, underscore separated token, which is the token the
    design's algorithm derives, and no two classes share a token.  (The
    source declares fourteen classes, all covered.) *)
Theorem action_name_table_injective :
  map (fun cls => (__name__ cls, action_name cls)) all_classes =
    [("LookDown", "look_down"); ("LookUp", "look_up");
     ("MoveForward", "move_forward");
     ("MoveTangentially", "move_tangentially");
     ("OrientHorizontal", "orient_horizontal");
     ("OrientVertical", "orient_vertical");
     ("SetAgentPitch", "set_agent_pitch");
     ("SetAgentPose", "set_agent_pose");
     ("SetSensorPitch", "set_sensor_pitch");
     ("SetSensorPose", "set_sensor_pose");
     ("SetSensorRotation", "set_sensor_rotation");
     ("SetYaw", "set_yaw"); ("TurnLeft", "turn_left");
     ("TurnRight", "turn_right")]
  /\ (forall cls, In cls all_classes)
  /\ (forall cls, action_name cls = derive_name (__name__ cls))
  /\ (forall c1 c2, action_name c1 = action_name c2 -> c1 = c2).
Proof.
  split; [reflexivity |].
  split; [exact all_classes_complete |].
  split.
  - intro cls. unfold action_name.
    destruct cls; apply camel_case_to_snake_case_derive_name; reflexivity.
  - intros c1 c2; destruct c1, c2; intro H;
      solve [reflexivity | vm_compute in H; discriminate H].
Qed.

(** ** Dictionary facts *)

Section DictionaryFacts.
Context {V : Type}.

Lemma contains_false_getitem (d : dictionary V) (key : string) :
  contains d key = false -> getitem d key = Raise (KeyError key).
Proof.
  induction d as [| [k v] r IH]; simpl; [reflexivity |].
  destruct (k =? key); [discriminate | exact IH].
Qed.

Lemma getitem_Ok_contains (d : dictionary V) (key : string) (v : V) :
  getitem d key = Ok v -> contains d key = true.
Proof.
  induction d as [| [k w] r IH]; simpl; [discriminate |].
  destruct (k =? key); [reflexivity | exact IH].
Qed.

Lemma contains_true_getitem (d : dictionary V) (key : string) :
  contains d key = true -> exists v, getitem d key = Ok v.
Proof.
  induction d as [| [k w] r IH]; simpl; [discriminate |].
  destruct (k =? key); [eexists; reflexivity | exact IH].
Qed.

Lemma getitem_cases (d : dictionary V) (key : string) :
  (exists v, getitem d key = Ok v /\ contains d key = true)
  \/ (getitem d key = Raise (KeyError key) /\ contains d key = false).
Proof.
  destruct (contains d key) eqn:E.
  - left. destruct (contains_true_getitem _ _ E) as [v Hv]. now exists v.
  - right. split; [now apply contains_false_getitem | reflexivity].
Qed.

Lemma contains_app (d1 d2 : dictionary V) (key : string) :
  contains (d1 ++ d2) key = contains d1 key || contains d2 key.
Proof.
  induction d1 as [| [k v] r IH]; simpl; [reflexivity |].
  destruct (k =? key); [reflexivity | exact IH].
Qed.

Lemma contains_In (d : dictionary V) (key : string) :
  contains d key = true <-> In key (map fst d).
Proof.
  induction d as [| [k v] r IH]; simpl.
  - split; [discriminate | tauto].
  - destruct (String.eqb_spec k key) as [-> | Hne].
    + split; auto.
    + rewrite IH. split; [auto | intros [H | H]; [contradiction | exact H]].
Qed.

Lemma contains_not_In (d : dictionary V) (key : string) :
  ~ In key (map fst d) -> contains d key = false.
Proof.
  intro H. destruct (contains d key) eqn:E; [| reflexivity].
  apply contains_In in E. contradiction.
Qed.

Lemma setitem_fresh (d : dictionary V) (key : string) (value : V) :
  contains d key = false -> setitem d key value = d ++ [(key, value)].
Proof.
  induction d as [| [k v] r IH]; simpl; [reflexivity |].
  destruct (k =? key); [discriminate |].
  intro H. now rewrite IH.
Qed.

Lemma filter_name_absent (d : dictionary V) :
  ~ In "name" (map fst d) ->
  filter (fun kv => negb (fst kv =? "name")) d = d.
Proof.
  induction d as [| [k v] r IH]; simpl; [reflexivity |].
  intro H. destruct (String.eqb_spec k "name") as [-> | _]; simpl.
  - exfalso; apply H; now left.
  - rewrite IH; [reflexivity | tauto].
Qed.

Lemma getitem_filter (p : string -> bool) (d : dictionary V) (key : string) :
  p key = true ->
  getitem (filter (fun kv => p (fst kv)) d) key = getitem d key.
Proof.
  intro Hp. induction d as [| [k v] r IH]; simpl; [reflexivity |].
  destruct (p k) eqn:Hk; simpl.
  - destruct (k =? key)%string; [reflexivity | exact IH].
  - destruct (String.eqb_spec k key) as [-> | _]; [congruence | exact IH].
Qed.

End DictionaryFacts.

(** Storing pairs with distinct, fresh keys appends them in order. *)
Lemma fold_setitem_fresh {V W : Type} (f : V -> W)
    (l : dictionary V) (acc : dictionary W) :
  NoDup (map fst l) ->
  (forall k, In k (map fst l) -> contains acc k = false) ->
  fold_left (fun o kv => setitem o (fst kv) (f (snd kv))) l acc
  = acc ++ map (fun kv => (fst kv, f (snd kv))) l.
Proof.
  revert acc. induction l as [| [k v] r IH]; intros acc Hnd Hfresh; simpl.
  - now rewrite app_nil_r.
  - inversion Hnd as [| ? ? Hk Hr]; subst.
    rewrite setitem_fresh by (apply Hfresh; now left).
    rewrite IH; [now rewrite <- app_assoc | exact Hr |].
    intros k' Hin. rewrite contains_app, Hfresh by now right.
    simpl. destruct (String.eqb_spec k k') as [-> | _]; [contradiction | reflexivity].
Qed.

Lemma dict_NoDup {V : Type} (l : dictionary V) :
  NoDup (map fst l) -> dict l = l.
Proof.
  intro H. unfold dict.
  rewrite (fold_setitem_fresh (fun v => v) l [] H) by reflexivity.
  simpl. induction l as [| [k v] r IH]; simpl; [reflexivity |].
  inversion H; subst. now rewrite IH.
Qed.

Lemma map_fst_values {V W : Type} (f : V -> W) (d : dictionary V) :
  map fst (map (fun kv => (fst kv, f (snd kv))) d) = map fst d.
Proof.
  induction d as [| [k v] r IH]; simpl; [reflexivity | now rewrite IH].
Qed.

Lemma eq_str_false (v : pyval) (s : string) :
  v <> PStr s -> eq_str v s = false.
Proof.
  destruct v; simpl; try reflexivity.
  intro H. destruct (String.eqb_spec s0 s); [subst; contradiction | reflexivity].
Qed.

(** ** Rejections *)

(** C5. An object without the ["action"] key is refused with the
    malformed-input error, whatever else it holds. *)
Theorem object_hook_missing_action (obj : pydict) :
  contains obj "action" = false ->
  object_hook obj = Raise (ValueError MissingActionKey).
Proof.
  intro H. unfold object_hook. rewrite H. reflexivity.
Qed.

Lemma object_hook_missing_action_witness :
  contains [("agent_id", PStr "a"); ("distance", PFloat 1)] "action" = false
  /\ object_hook [("agent_id", PStr "a"); ("distance", PFloat 1)]
     = Raise (ValueError MissingActionKey).
Proof.
  split; [reflexivity |].
  apply (object_hook_missing_action
           [("agent_id", PStr "a"); ("distance", PFloat 1)]).
  reflexivity.
Defined.

(** C6. An object whose ["action"] value is the name of no class is
    refused with the unknown-action error; no instance is built. *)
Theorem object_hook_unknown_action (obj : pydict) (action : pyval) :
  getitem obj "action" = Ok action ->
  (forall cls, action <> PStr (action_name cls)) ->
  object_hook obj = Raise (ValueError (UnknownAction action)).
Proof.
  intros Hget Hnone. unfold object_hook.
  rewrite (getitem_Ok_contains _ _ _ Hget), Hget. cbn [negb bind].
  repeat rewrite eq_str_false by apply Hnone.
  reflexivity.
Qed.

Lemma object_hook_unknown_action_witness :
  object_hook [("action", PStr "not_a_real_action"); ("agent_id", PStr "a")]
  = Raise (ValueError (UnknownAction (PStr "not_a_real_action"))).
Proof.
  apply (object_hook_unknown_action
           [("action", PStr "not_a_real_action"); ("agent_id", PStr "a")]
           (PStr "not_a_real_action")).
  - reflexivity.
  - intros cls; destruct cls; vm_compute; discriminate.
Defined.

(** C10. The decoder reads ["constraint_degrees"] unconditionally: a
    [look_down] or [look_up] object that carries the other two keys but
    not this one is refused with [KeyError], although the constructors
    themselves fill in 90.0 when the argument is left out. *)
Theorem object_hook_no_default_constraint
    (cls : action_class) (obj : pydict) (agent_id rotation_degrees : pyval) :
  cls = LookDown \/ cls = LookUp ->
  getitem obj "action" = Ok (PStr (action_name cls)) ->
  getitem obj "agent_id" = Ok agent_id ->
  getitem obj "rotation_degrees" = Ok rotation_degrees ->
  contains obj "constraint_degrees" = false ->
  object_hook obj = Raise (KeyError "constraint_degrees")
  /\ getattr (LookDown__init__ (Plain agent_id) (Plain rotation_degrees) None)
       "constraint_degrees" = Ok (Plain (PFloat 90))
  /\ getattr (LookUp__init__ (Plain agent_id) (Plain rotation_degrees) None)
       "constraint_degrees" = Ok (Plain (PFloat 90)).
Proof.
  intros Hcls Hact Hid Hrot Hmiss.
  split; [| split; reflexivity].
  unfold object_hook.
  rewrite (getitem_Ok_contains _ _ _ Hact), Hact, Hid, Hrot.
  rewrite (contains_false_getitem _ _ Hmiss).
  destruct Hcls; subst cls; reflexivity.
Qed.

Lemma object_hook_no_default_constraint_witness :
  object_hook [("action", PStr "look_down"); ("agent_id", PStr "a");
               ("rotation_degrees", PFloat 10)]
    = Raise (KeyError "constraint_degrees")
  /\ getattr (LookDown__init__ (Plain (PStr "a")) (Plain (PFloat 10)) None)
       "constraint_degrees" = Ok (Plain (PFloat 90))
  /\ getattr (LookUp__init__ (Plain (PStr "a")) (Plain (PFloat 10)) None)
       "constraint_degrees" = Ok (Plain (PFloat 90)).
Proof.
  apply (object_hook_no_default_constraint LookDown
           [("action", PStr "look_down"); ("agent_id", PStr "a");
            ("rotation_degrees", PFloat 10)]
           (PStr "a") (PFloat 10)).
  - left; reflexivity.
  - reflexivity.
  - reflexivity.
  - reflexivity.
  - reflexivity.
Defined.

(** ** Sequence fields *)

(** C8. [tuple(...)] is all the decoder applies to a direction, a
    location or a rotation: a list of any length is accepted and ends
    up, as a tuple of that same length, in the instance.  In particular
    a [set_agent_pose] object with a two-element location decodes. *)
Theorem object_hook_no_arity_check :
  (forall agent_id location rotation_quat,
      object_hook [("action", PStr "set_agent_pose"); ("agent_id", agent_id);
                   ("location", PList location);
                   ("rotation_quat", PList rotation_quat)]
      = Ok (SetAgentPose__init__ (Plain agent_id)
              (Plain (PTuple location)) (Plain (PTuple rotation_quat))))
  /\ (forall agent_id location rotation_quat,
      object_hook [("action", PStr "set_sensor_pose"); ("agent_id", agent_id);
                   ("location", PList location);
                   ("rotation_quat", PList rotation_quat)]
      = Ok (SetSensorPose__init__ (Plain agent_id)
              (Plain (PTuple location)) (Plain (PTuple rotation_quat))))
  /\ (forall agent_id rotation_quat,
      object_hook [("action", PStr "set_sensor_rotation");
                   ("agent_id", agent_id);
                   ("rotation_quat", PList rotation_quat)]
      = Ok (SetSensorRotation__init__
              (Plain agent_id) (Plain (PTuple rotation_quat))))
  /\ (forall agent_id distance direction,
      object_hook [("action", PStr "move_tangentially");
                   ("agent_id", agent_id); ("distance", distance);
                   ("direction", PList direction)]
      = Ok (MoveTangentially__init__
              (Plain agent_id) (Plain distance) (Plain (PTuple direction))))
  /\ (exists a,
      object_hook [("action", PStr "set_agent_pose"); ("agent_id", PStr "a");
                   ("location", PList [PFloat 0; PFloat 1]);
                   ("rotation_quat",
                    PList [PFloat 1; PFloat 0; PFloat 0; PFloat 0])]
      = Ok a
      /\ getattr a "location" = Ok (Plain (PTuple [PFloat 0; PFloat 1]))
      /\ List.length [PFloat 0; PFloat 1] <> 3).
Proof.
  split; [reflexivity |].
  split; [reflexivity |].
  split; [reflexivity |].
  split; [reflexivity |].
  eexists. split; [reflexivity |].
  split; [reflexivity | discriminate].
Qed.

(** ** Round trips *)


(** C1. Round trip: for an instance [a] of any class, built with
    arguments of the annotated types, decoding the encoding of [a]
    succeeds and returns [a] itself: same class, hence same [name], and
    the same attribute dictionary ([agent_id] and every other field).
    This holds hook to hook and through the text form. *)
Theorem decode_encode_roundtrip (a : Action) :
  well_typed a ->
  decode_encode a = Ok a /\ decode_encode_text a = Ok a.
Proof.
  intros [ agent_id r [c |] | agent_id r [c |] | agent_id d
         | agent_id d [[x y] z]
         | agent_id r l f | agent_id r l f | agent_id p
         | agent_id [[x y] z] [[[qw qx] qy] qz] | agent_id p
         | agent_id [[x y] z] [[[qw qx] qy] qz]
         | agent_id [[[qw qx] qy] qz]
         | agent_id r | agent_id r | agent_id r ];
    split; reflexivity.
Qed.

Lemma decode_encode_roundtrip_witness :
  decode_encode
    (SetAgentPose__init__ (of_str "agent_01")
       (of_vector (0, 1, 0)%float) (of_quaternion (1, 0, 0, 0)%float))
  = Ok (SetAgentPose__init__ (of_str "agent_01")
          (of_vector (0, 1, 0)%float) (of_quaternion (1, 0, 0, 0)%float))
  /\ decode_encode_text
    (SetAgentPose__init__ (of_str "agent_01")
       (of_vector (0, 1, 0)%float) (of_quaternion (1, 0, 0, 0)%float))
  = Ok (SetAgentPose__init__ (of_str "agent_01")
          (of_vector (0, 1, 0)%float) (of_quaternion (1, 0, 0, 0)%float)).
Proof.
  apply (decode_encode_roundtrip
           (SetAgentPose__init__ (of_str "agent_01")
              (of_vector (0, 1, 0)%float) (of_quaternion (1, 0, 0, 0)%float))).
  apply (wt_SetAgentPose "agent_01" (0, 1, 0)%float (1, 0, 0, 0)%float).
Defined.

(** ** Encoder output *)

Lemma default_step (o : pydict) (kv : string * attr) :
  (let '(key, value) := kv in
   match value with
   | Ndarray tolist => setitem o key tolist
   | Plain value => setitem o key value
   end)
  = setitem o (fst kv) (encoded (snd kv)).
Proof. destruct kv as [k []]; reflexivity. Qed.

Lemma fold_left_pointwise {A B : Type} (f g : A -> B -> A) (l : list B) (a : A) :
  (forall x y, f x y = g x y) -> fold_left f l a = fold_left g l a.
Proof.
  intro H. revert a. induction l as [| y r IH]; intro a; simpl; [reflexivity |].
  now rewrite H, IH.
Qed.

(** The encoder's output for an instance whose attribute names are
    distinct and are neither ["action"] nor ["name"]: the name pair,
    then the attributes in dictionary order, arrays flattened. *)
Lemma default_Obj (a : Action) :
  NoDup (map fst (__dict__ a)) ->
  ~ In "action" (map fst (__dict__ a)) ->
  ~ In "name" (map fst (__dict__ a)) ->
  default (Obj a)
  = Ok (("action", PStr (name a))
          :: map (fun kv => (fst kv, encoded (snd kv))) (__dict__ a)).
Proof.
  intros Hnd Hact Hname. unfold default, __iter__, items.
  rewrite filter_name_absent by exact Hname.
  rewrite dict_NoDup by (simpl; constructor; assumption).
  rewrite (fold_left_pointwise _ _ _ _ default_step).
  rewrite (fold_setitem_fresh encoded);
    [reflexivity | simpl; constructor; assumption |].
  reflexivity.
Qed.

Lemma constructed_keys (a : Action) :
  constructed a ->
  map fst (__dict__ a) = "agent_id" :: assigned (__class__ a).
Proof. destruct 1; reflexivity. Qed.

Lemma assigned_NoDup (cls : action_class) :
  NoDup ("action" :: "name" :: "agent_id" :: assigned cls).
Proof.
  destruct cls; simpl;
    repeat (constructor; [simpl; intuition discriminate |]); constructor.
Qed.

(** C2, as the code has it.  For an instance built by any of the
    constructors, the encoder returns the pair ["action"], derived name,
    followed by every attribute of the instance under its own key, in
    the order in which the constructor assigned them, with no ["name"]
    key.  That order is [agent_id] and then the parameters in signature
    order, except for [LookDown] and [LookUp], whose bodies assign
    [constraint_degrees] before [rotation_degrees]. *)
Theorem default_key_order (a : Action) :
  constructed a ->
  exists o,
    default (Obj a) = Ok o
    /\ o = ("action", PStr (action_name (__class__ a)))
             :: map (fun kv => (fst kv, encoded (snd kv))) (__dict__ a)
    /\ map fst o = "action" :: "agent_id" :: assigned (__class__ a)
    /\ contains o "name" = false
    /\ (forall k, In k (assigned (__class__ a))
                  <-> In k (parameters (__class__ a)))
    /\ (__class__ a <> LookDown -> __class__ a <> LookUp ->
        assigned (__class__ a) = parameters (__class__ a))
    /\ (__class__ a = LookDown \/ __class__ a = LookUp ->
        assigned (__class__ a) = ["constraint_degrees"; "rotation_degrees"]).
Proof.
  intro H. pose proof (constructed_keys a H) as Hkeys.
  pose proof (assigned_NoDup (__class__ a)) as Hnd.
  inversion Hnd as [| ? ? Hact Hnd1]; subst.
  inversion Hnd1 as [| ? ? Hname Hnd2]; subst.
  eexists. split; [| split; [reflexivity |]].
  - apply default_Obj; rewrite Hkeys.
    + exact Hnd2.
    + intro Hin; apply Hact; now right.
    + exact Hname.
  - split; [| split; [| split; [| split]]].
    + cbn [map fst]. now rewrite map_fst_values, Hkeys.
    + apply contains_not_In. cbn [map fst]. rewrite map_fst_values, Hkeys.
      intros [Hin | Hin]; [discriminate |].
      apply Hname; exact Hin.
    + intro k. destruct (__class__ a); simpl; tauto.
    + destruct (__class__ a); intros; solve [reflexivity | contradiction].
    + intros [-> | ->]; reflexivity.
Qed.

Lemma default_key_order_witness :
  exists o,
    default (Obj (MoveForward__init__ (of_str "a") (of_float 1.5))) = Ok o
    /\ map fst o = ["action"; "agent_id"; "distance"].
Proof.
  destruct (default_key_order (MoveForward__init__ (of_str "a") (of_float 1.5))
              (c_MoveForward (of_str "a") (of_float 1.5)))
    as [o [Hdef [_ [Hkeys _]]]].
  exists o. split; [exact Hdef | exact Hkeys].
Defined.

(** C2, as the claim has it, fails on [LookDown]: the encoder emits
    [constraint_degrees] before [rotation_degrees]. *)
Lemma default_LookDown_not_parameter_order :
  exists o,
    default (Obj (LookDown__init__ (of_str "a") (of_float 10) None)) = Ok o
    /\ map fst o
       = ["action"; "agent_id"; "constraint_degrees"; "rotation_degrees"]
    /\ map fst o <> "action" :: "agent_id" :: parameters LookDown.
Proof.
  eexists. split; [reflexivity |].
  split; [reflexivity | discriminate].
Qed.

(** ** Missing fields *)

(** Decide the tests of the [if]/[elif] chain once the discriminator
    is a known string. *)
Ltac dispatch :=
  repeat match goal with
    | |- context [eq_str (PStr ?a) ?b] =>
        let r := eval vm_compute in (eq_str (PStr a) b) in
        change (eq_str (PStr a) b) with r
    end;
  cbv iota.

(** Enter [object_hook] on an object whose discriminator names [cls]. *)
Ltac enter_hook Hact :=
  unfold object_hook;
  rewrite (getitem_Ok_contains _ _ _ Hact), Hact;
  cbn [negb bind]; dispatch.

(** Split on the presence of [key] in [obj]. *)
Ltac on_key obj key :=
  let v := fresh "v" in
  let Hg := fresh "Hg" in
  let Hc := fresh "Hc" in
  destruct (getitem_cases obj key) as [[v [Hg Hc]] | [Hg Hc]];
  rewrite ?Hg, ?Hc in *; cbn [negb bind find] in *.

(** Look at the value under a sequence key that was just found. *)
Ltac on_tuple :=
  try match goal with
    | |- context [tuple ?v] => is_var v; destruct v; cbn [tuple bind]
    end.

(** Walk the keys in the order in which the branch reads them. *)
Ltac walk obj keys leaf :=
  lazymatch keys with
  | nil => leaf
  | cons ?k ?r => on_key obj k; [on_tuple; walk obj r leaf | leaf]
  end.

Ltac all_present Hin Hk :=
  exfalso; cbn [required_keys parameters In] in Hin;
  repeat (destruct Hin as [<- | Hin]; [congruence |]); exact Hin.

(** The case of a location that is not iterable, at a leaf. *)
Ltac type_error_case :=
  let v := fresh "v" in
  let Hcls := fresh "Hcls" in
  let Hkey := fresh "Hkey" in
  let Hloc := fresh "Hloc" in
  let Hit := fresh "Hit" in
  intros v Hcls Hkey Hloc Hit;
  first
    [ destruct Hcls as [Hcls | Hcls]; discriminate Hcls
    | discriminate Hkey
    | discriminate Hloc
    | injection Hloc as <-;
      first [reflexivity | cbv in Hit; discriminate Hit] ].

(** The case of every other object, at a leaf. *)
Ltac key_error_case :=
  let Hall := fresh "Hall" in
  intro Hall;
  first
    [ reflexivity
    | exfalso;
      let Hd := fresh "Hd" in
      assert (Hd : SetAgentPose = SetAgentPose \/ SetAgentPose = SetSensorPose)
        by (left; reflexivity);
      specialize (Hall Hd eq_refl _ eq_refl); cbv in Hall; discriminate Hall
    | exfalso;
      let Hd := fresh "Hd" in
      assert (Hd : SetSensorPose = SetAgentPose \/ SetSensorPose = SetSensorPose)
        by (right; reflexivity);
      specialize (Hall Hd eq_refl _ eq_refl); cbv in Hall; discriminate Hall ].

Ltac missing_leaf Hin Hk :=
  first
    [ solve [eexists; split; [reflexivity |];
             split; [intros ?; discriminate |];
             split;
             [ first [left; reflexivity | right; eexists; repeat split; eauto]
             | split; [type_error_case | key_error_case] ]]
    | all_present Hin Hk ].

(** C4, as the code has it.  When the discriminator names a class and
    some key that the class requires is absent, decoding raises and
    builds no instance.  What is raised is [KeyError] on the first
    absent key, in the order in which the branch reads its keys; the
    one exception is a [set_agent_pose] or [set_sensor_pose] object
    whose only absent key is ["rotation_quat"] and whose ["location"]
    is not iterable: [tuple(obj["location"])] raises [TypeError]
    before ["rotation_quat"] is looked up.  Both cases are stated as
    implications: in the exceptional case the error is that
    [TypeError], in every other case it is the [KeyError]. *)
Theorem object_hook_missing_field
    (cls : action_class) (obj : pydict) (k : string) :
  getitem obj "action" = Ok (PStr (action_name cls)) ->
  In k (required_keys cls) ->
  contains obj k = false ->
  exists key,
    first_missing obj (required_keys cls) = Some key
    /\ (forall a, object_hook obj <> Ok a)
    /\ (object_hook obj = Raise (KeyError key)
        \/ exists v,
            (cls = SetAgentPose \/ cls = SetSensorPose)
            /\ key = "rotation_quat"
            /\ getitem obj "location" = Ok v
            /\ iterable v = false
            /\ object_hook obj = Raise (TypeError (NotIterable v)))
    /\ (forall v,
          cls = SetAgentPose \/ cls = SetSensorPose ->
          key = "rotation_quat" ->
          getitem obj "location" = Ok v ->
          iterable v = false ->
          object_hook obj = Raise (TypeError (NotIterable v)))
    /\ ((cls = SetAgentPose \/ cls = SetSensorPose ->
         key = "rotation_quat" ->
         forall v, getitem obj "location" = Ok v -> iterable v = true) ->
        object_hook obj = Raise (KeyError key)).
Proof.
  intros Hact Hin Hk.
  destruct cls; enter_hook Hact;
    unfold first_missing; cbn [required_keys parameters find].
  - walk obj ["agent_id"; "rotation_degrees"; "constraint_degrees"]
      ltac:(missing_leaf Hin Hk).
  - walk obj ["agent_id"; "rotation_degrees"; "constraint_degrees"]
      ltac:(missing_leaf Hin Hk).
  - walk obj ["agent_id"; "distance"] ltac:(missing_leaf Hin Hk).
  - walk obj ["agent_id"; "distance"; "direction"] ltac:(missing_leaf Hin Hk).
  - walk obj ["agent_id"; "rotation_degrees"; "left_distance";
              "forward_distance"] ltac:(missing_leaf Hin Hk).
  - walk obj ["agent_id"; "rotation_degrees"; "down_distance";
              "forward_distance"] ltac:(missing_leaf Hin Hk).
  - walk obj ["agent_id"; "pitch_degrees"] ltac:(missing_leaf Hin Hk).
  - walk obj ["agent_id"; "location"; "rotation_quat"]
      ltac:(missing_leaf Hin Hk).
  - walk obj ["agent_id"; "pitch_degrees"] ltac:(missing_leaf Hin Hk).
  - walk obj ["agent_id"; "location"; "rotation_quat"]
      ltac:(missing_leaf Hin Hk).
  - walk obj ["agent_id"; "rotation_quat"] ltac:(missing_leaf Hin Hk).
  - walk obj ["agent_id"; "rotation_degrees"] ltac:(missing_leaf Hin Hk).
  - walk obj ["agent_id"; "rotation_degrees"] ltac:(missing_leaf Hin Hk).
  - walk obj ["agent_id"; "rotation_degrees"] ltac:(missing_leaf Hin Hk).
Qed.

Lemma object_hook_missing_field_witness :
  first_missing [("action", PStr "move_forward"); ("agent_id", PStr "a")]
    (required_keys MoveForward) = Some "distance"
  /\ object_hook [("action", PStr "move_forward"); ("agent_id", PStr "a")]
     = Raise (KeyError "distance").
Proof.
  destruct (object_hook_missing_field MoveForward
              [("action", PStr "move_forward"); ("agent_id", PStr "a")]
              "distance") as [key [Hfirst [_ [_ [_ Hkey]]]]].
  - reflexivity.
  - simpl; tauto.
  - reflexivity.
  - split; [reflexivity |].
    vm_compute in Hfirst. injection Hfirst as <-.
    apply Hkey. intros [H | H]; discriminate H.
Defined.

(** C4, as the claim has it, fails on a [set_agent_pose] object that
    lacks ["rotation_quat"] and whose ["location"] is a number: the
    error is [TypeError], not the missing-field error. *)
Lemma object_hook_missing_field_TypeError :
  getitem [("action", PStr "set_agent_pose"); ("agent_id", PStr "a");
           ("location", PInt 5)] "action"
    = Ok (PStr (action_name SetAgentPose))
  /\ In "rotation_quat" (required_keys SetAgentPose)
  /\ contains [("action", PStr "set_agent_pose"); ("agent_id", PStr "a");
               ("location", PInt 5)] "rotation_quat" = false
  /\ object_hook [("action", PStr "set_agent_pose"); ("agent_id", PStr "a");
                  ("location", PInt 5)]
     = Raise (TypeError (NotIterable (PInt 5)))
  /\ (forall key,
        object_hook [("action", PStr "set_agent_pose"); ("agent_id", PStr "a");
                     ("location", PInt 5)]
        <> Raise (KeyError key)).
Proof.
  split; [reflexivity |].
  split; [simpl; tauto |].
  split; [reflexivity |].
  split; [reflexivity |].
  intros key H. vm_compute in H. discriminate H.
Qed.

(** ** Extra keys *)

Lemma getitem_without_extras (cls : action_class) (obj : pydict) (key : string) :
  existsb (String.eqb key) ("action" :: required_keys cls) = true ->
  getitem (without_extras cls obj) key = getitem obj key.
Proof.
  intro H. unfold without_extras.
  apply (getitem_filter
           (fun k => existsb (String.eqb k) ("action" :: required_keys cls))).
  exact H.
Qed.

(** Dropping the keys a branch does not read changes nothing. *)
Lemma object_hook_without_extras (cls : action_class) (obj : pydict) :
  getitem obj "action" = Ok (PStr (action_name cls)) ->
  object_hook (without_extras cls obj) = object_hook obj.
Proof.
  intro Hact.
  assert (Hact' : getitem (without_extras cls obj) "action"
                  = Ok (PStr (action_name cls))).
  { rewrite getitem_without_extras by reflexivity. exact Hact. }
  unfold object_hook.
  rewrite (getitem_Ok_contains _ _ _ Hact), (getitem_Ok_contains _ _ _ Hact').
  rewrite Hact, Hact'. cbn [negb bind].
  destruct cls; dispatch;
    rewrite !getitem_without_extras by reflexivity; reflexivity.
Qed.

(** Fetch a key that is known to be present, and, for a sequence key,
    the tuple made of its value. *)
Ltac take H key :=
  let v := fresh "v" in
  let Hg := fresh "Hg" in
  let Hit := fresh "Hit" in
  destruct (H key) as [v [Hg Hit]];
    [cbn [required_keys parameters In]; tauto |];
  rewrite Hg; cbn [bind];
  try (specialize (Hit eq_refl); unfold iterable in Hit;
       let Ht := fresh "Ht" in
       destruct (tuple v) eqn:Ht; [clear Hit | discriminate Hit];
       cbn [bind]).

Ltac take_all H keys :=
  lazymatch keys with
  | nil => idtac
  | cons ?k ?r => take H k; take_all H r
  end.

(** The attribute stored under a key just read, against the value
    [Hw] says the object holds under it. *)
Ltac found Hw :=
  match goal with
  | Hg : getitem _ ?k = Ok _ |- getattr _ ?k = _ =>
      rewrite Hg in Hw; injection Hw as <-
  end;
  match goal with
  | |- context [sequence_key ?k] =>
      let r := eval vm_compute in (sequence_key k) in
      change (sequence_key k) with r
  end;
  cbv iota;
  try match goal with
    | Ht : tuple ?v = Ok _ |- context [tuple ?v] => rewrite Ht
    end;
  reflexivity.

Ltac built :=
  eexists; split; [reflexivity |]; split; [reflexivity |];
  let k := fresh "k" in
  let w := fresh "w" in
  let Hin := fresh "Hin" in
  let Hw := fresh "Hw" in
  intros k w Hin Hw; cbn [required_keys parameters In] in Hin;
  repeat (destruct Hin as [<- | Hin]; [found Hw |]);
  contradiction.

(** With every required key present and every sequence value iterable,
    the branch builds an instance of its class out of the values. *)
Lemma object_hook_builds (cls : action_class) (obj : pydict) :
  getitem obj "action" = Ok (PStr (action_name cls)) ->
  (forall k, In k (required_keys cls) ->
             exists v, getitem obj k = Ok v
                       /\ (sequence_key k = true -> iterable v = true)) ->
  exists a,
    object_hook obj = Ok a
    /\ __class__ a = cls
    /\ (forall k v, In k (required_keys cls) -> getitem obj k = Ok v ->
                    getattr a k
                    = fmap Plain (if sequence_key k then tuple v else Ok v)).
Proof.
  intros Hact H. destruct cls; enter_hook Hact.
  - take_all H ["agent_id"; "rotation_degrees"; "constraint_degrees"]; built.
  - take_all H ["agent_id"; "rotation_degrees"; "constraint_degrees"]; built.
  - take_all H ["agent_id"; "distance"]; built.
  - take_all H ["agent_id"; "distance"; "direction"]; built.
  - take_all H ["agent_id"; "rotation_degrees"; "left_distance";
                "forward_distance"]; built.
  - take_all H ["agent_id"; "rotation_degrees"; "down_distance";
                "forward_distance"]; built.
  - take_all H ["agent_id"; "pitch_degrees"]; built.
  - take_all H ["agent_id"; "location"; "rotation_quat"]; built.
  - take_all H ["agent_id"; "pitch_degrees"]; built.
  - take_all H ["agent_id"; "location"; "rotation_quat"]; built.
  - take_all H ["agent_id"; "rotation_quat"]; built.
  - take_all H ["agent_id"; "rotation_degrees"]; built.
  - take_all H ["agent_id"; "rotation_degrees"]; built.
  - take_all H ["agent_id"; "rotation_degrees"]; built.
Qed.

(** Fetch a key that [Hall] says is present. *)
Ltac present Hall obj key :=
  let v := fresh "v" in
  let Hg := fresh "Hg" in
  destruct (contains_true_getitem obj key) as [v Hg];
  [ apply Hall; cbn [required_keys parameters In]; tauto | ];
  rewrite ?Hg in *; cbn [bind].

(** With every required key present, the first value under a sequence
    key, in reading order, that is not iterable is what [tuple] is
    refused on. *)
Lemma object_hook_not_iterable
    (cls : action_class) (obj : pydict) (k : string) (v : pyval) :
  getitem obj "action" = Ok (PStr (action_name cls)) ->
  (forall k, In k (required_keys cls) -> contains obj k = true) ->
  In k (required_keys cls) ->
  sequence_key k = true ->
  getitem obj k = Ok v ->
  iterable v = false ->
  (k = "rotation_quat" ->
   forall w, In "location" (required_keys cls) ->
             getitem obj "location" = Ok w -> iterable w = true) ->
  object_hook obj = Raise (TypeError (NotIterable v)).
Proof.
  intros Hact Hall Hin Hseq Hv Hit Hfirst.
  destruct cls; cbn [required_keys parameters In] in Hin;
    repeat (destruct Hin as [<- | Hin]; [try discriminate Hseq |]);
    try contradiction; enter_hook Hact.
  - present Hall obj "agent_id". present Hall obj "distance".
    rewrite Hv. destruct v; try discriminate Hit; reflexivity.
  - present Hall obj "agent_id".
    rewrite Hv. destruct v; try discriminate Hit; reflexivity.
  - present Hall obj "agent_id". present Hall obj "location".
    assert (Hloc : iterable v1 = true)
      by (apply (Hfirst eq_refl); [cbn; tauto | reflexivity]).
    rewrite Hv.
    destruct v1; try discriminate Hloc;
      destruct v; try discriminate Hit; reflexivity.
  - present Hall obj "agent_id".
    rewrite Hv. destruct v; try discriminate Hit; reflexivity.
  - present Hall obj "agent_id". present Hall obj "location".
    assert (Hloc : iterable v1 = true)
      by (apply (Hfirst eq_refl); [cbn; tauto | reflexivity]).
    rewrite Hv.
    destruct v1; try discriminate Hloc;
      destruct v; try discriminate Hit; reflexivity.
  - present Hall obj "agent_id".
    rewrite Hv. destruct v; try discriminate Hit; reflexivity.
Qed.

(** A value under a sequence key that is not iterable always ends in a
    [TypeError]: on that value, or on the location read before it. *)
Lemma object_hook_some_TypeError
    (cls : action_class) (obj : pydict) (k : string) (v : pyval) :
  getitem obj "action" = Ok (PStr (action_name cls)) ->
  (forall k, In k (required_keys cls) -> contains obj k = true) ->
  In k (required_keys cls) ->
  sequence_key k = true ->
  getitem obj k = Ok v ->
  iterable v = false ->
  exists w, object_hook obj = Raise (TypeError (NotIterable w)).
Proof.
  intros Hact Hall Hin Hseq Hv Hit.
  destruct (in_dec string_dec "location" (required_keys cls)) as [Hl | Hl].
  - destruct (contains_true_getitem _ _ (Hall "location" Hl)) as [w Hw].
    destruct (iterable w) eqn:E.
    + exists v.
      apply (object_hook_not_iterable cls obj k v); trivial.
      intros _ w' _ Hw'. rewrite Hw in Hw'. now injection Hw' as <-.
    + exists w.
      apply (object_hook_not_iterable cls obj "location" w); trivial.
      intro H. discriminate H.
  - exists v.
    apply (object_hook_not_iterable cls obj k v); trivial.
    intros _ w Hin'. contradiction.
Qed.

(** C9, as the code has it.  On an object whose discriminator names a
    class and which holds every key the class requires, keys beyond
    those are never looked at: decoding gives exactly what decoding the
    object without them gives.  It succeeds, with an instance of that
    class holding the values found (sequence values as tuples), as soon
    as the values under ["direction"], ["location"] and
    ["rotation_quat"] are iterable.  A value under one of these keys
    that is not iterable makes decoding raise [TypeError], with the
    extra keys and without them: on the first such value in reading
    order. *)
Theorem object_hook_ignores_extras (cls : action_class) (obj : pydict) :
  getitem obj "action" = Ok (PStr (action_name cls)) ->
  (forall k, In k (required_keys cls) -> contains obj k = true) ->
  object_hook (without_extras cls obj) = object_hook obj
  /\ ((forall k v, In k (required_keys cls) -> sequence_key k = true ->
                   getitem obj k = Ok v -> iterable v = true) ->
      exists a,
        object_hook obj = Ok a
        /\ object_hook (without_extras cls obj) = Ok a
        /\ __class__ a = cls
        /\ (forall k v, In k (required_keys cls) -> getitem obj k = Ok v ->
                        getattr a k
                    = fmap Plain (if sequence_key k then tuple v else Ok v)))
  /\ (forall k v,
        In k (required_keys cls) -> sequence_key k = true ->
        getitem obj k = Ok v -> iterable v = false ->
        (exists w,
            object_hook obj = Raise (TypeError (NotIterable w))
            /\ object_hook (without_extras cls obj)
               = Raise (TypeError (NotIterable w)))
        /\ ((k = "rotation_quat" ->
             forall w, In "location" (required_keys cls) ->
                       getitem obj "location" = Ok w -> iterable w = true) ->
            object_hook obj = Raise (TypeError (NotIterable v))
            /\ object_hook (without_extras cls obj)
               = Raise (TypeError (NotIterable v)))).
Proof.
  intros Hact Hall.
  pose proof (object_hook_without_extras cls obj Hact) as Hsame.
  split; [exact Hsame |]. split.
  - intro Hit.
    destruct (object_hook_builds cls obj Hact) as [a [Ha [Hcls Hattr]]].
    + intros k Hin. destruct (contains_true_getitem _ _ (Hall k Hin)) as [v Hv].
      exists v. split; [exact Hv |]. intro Hseq. exact (Hit k v Hin Hseq Hv).
    + exists a. rewrite Hsame. auto.
  - intros k v Hin Hseq Hv Hit. rewrite Hsame. split.
    + destruct (object_hook_some_TypeError cls obj k v Hact Hall Hin Hseq Hv Hit)
        as [w Hw].
      exists w. now split.
    + intro Hfirst.
      pose proof (object_hook_not_iterable cls obj k v
                    Hact Hall Hin Hseq Hv Hit Hfirst) as Hraise.
      now split.
Qed.

Lemma object_hook_ignores_extras_witness :
  object_hook
    (without_extras MoveForward
       [("action", PStr "move_forward"); ("note", PStr "x");
        ("agent_id", PStr "agent_01"); ("distance", PFloat 0.25);
        ("speed", PInt 3)])
  = object_hook
      [("action", PStr "move_forward"); ("note", PStr "x");
       ("agent_id", PStr "agent_01"); ("distance", PFloat 0.25);
       ("speed", PInt 3)]
  /\ exists a,
      object_hook
        [("action", PStr "move_forward"); ("note", PStr "x");
         ("agent_id", PStr "agent_01"); ("distance", PFloat 0.25);
         ("speed", PInt 3)] = Ok a
      /\ __class__ a = MoveForward.
Proof.
  destruct (object_hook_ignores_extras MoveForward
              [("action", PStr "move_forward"); ("note", PStr "x");
               ("agent_id", PStr "agent_01"); ("distance", PFloat 0.25);
               ("speed", PInt 3)]) as [Hsame [Hbuilt _]].
  - reflexivity.
  - intros k Hin. simpl in Hin.
    destruct Hin as [<- | [<- | []]]; reflexivity.
  - split; [exact Hsame |].
    destruct Hbuilt as [a [Ha [_ [Hcls _]]]].
    + intros k v Hin Hseq Hget. simpl in Hin.
      destruct Hin as [<- | [<- | []]]; discriminate Hseq.
    + exists a. split; [exact Ha | exact Hcls].
Defined.

(** C9, as the claim has it, fails on a [set_sensor_rotation] object
    that holds every required key and one more, with a number under
    ["rotation_quat"]: decoding raises [TypeError]. *)
Lemma object_hook_all_keys_TypeError :
  getitem [("action", PStr "set_sensor_rotation"); ("agent_id", PStr "a");
           ("rotation_quat", PInt 5); ("note", PStr "x")] "action"
    = Ok (PStr (action_name SetSensorRotation))
  /\ (forall k, In k (required_keys SetSensorRotation) ->
                contains [("action", PStr "set_sensor_rotation");
                          ("agent_id", PStr "a");
                          ("rotation_quat", PInt 5); ("note", PStr "x")] k
                = true)
  /\ object_hook [("action", PStr "set_sensor_rotation"); ("agent_id", PStr "a");
                  ("rotation_quat", PInt 5); ("note", PStr "x")]
     = Raise (TypeError (NotIterable (PInt 5)))
  /\ (forall a,
        object_hook [("action", PStr "set_sensor_rotation");
                     ("agent_id", PStr "a");
                     ("rotation_quat", PInt 5); ("note", PStr "x")]
        <> Ok a).
Proof.
  split; [reflexivity |].
  split; [intros k [<- | [<- | []]]; reflexivity |].
  split; [reflexivity |].
  intros a H. vm_compute in H. discriminate H.
Qed.

(** * Further properties of the module *)

(** ** Name derivation on arbitrary identifiers *)

Lemma isupper_lower (c : ascii) : isupper (lower c) = false.
Proof.
  destruct c as [[] [] [] [] [] [] [] []]; vm_compute; reflexivity.
Qed.

Lemma snake_join_no_upper (name : string) : any_upper (snake_join name) = false.
Proof.
  induction name as [| c r IH]; simpl; [reflexivity |].
  destruct (isupper c) eqn:E; simpl.
  - now rewrite isupper_lower, IH.
  - now rewrite E, IH.
Qed.

Lemma lstrip_no_upper (s : string) (c : ascii) :
  any_upper s = false -> any_upper (lstrip s c) = false.
Proof.
  induction s as [| x r IH]; simpl; [reflexivity |].
  intro H. apply orb_false_iff in H as [Hx Hr].
  destruct (x =? c)%char; [now apply IH |].
  simpl. now rewrite Hx, Hr.
Qed.

Lemma lstrip_head (s : string) (c : ascii) (r : string) :
  lstrip s c <> String c r.
Proof.
  induction s as [| x t IH]; simpl; [discriminate |].
  destruct (Ascii.eqb_spec x c) as [-> | Hne]; [exact IH |].
  intro H. injection H as Hx _. contradiction.
Qed.

Lemma lstrip_fixed (s : string) (c : ascii) :
  (forall r, s <> String c r) -> lstrip s c = s.
Proof.
  destruct s as [| x t]; simpl; [reflexivity |].
  intro H. destruct (Ascii.eqb_spec x c) as [-> | _]; [| reflexivity].
  now destruct (H t).
Qed.

Lemma snake_join_fixed (s : string) : any_upper s = false -> snake_join s = s.
Proof.
  induction s as [| c r IH]; simpl; [reflexivity |].
  intro H. apply orb_false_iff in H as [Hc Hr].
  now rewrite Hc, IH.
Qed.

Lemma camel_case_to_snake_case_shape_aux (name : string) :
  any_upper (_camel_case_to_snake_case name) = false
  /\ (forall r, _camel_case_to_snake_case name <> String "_" r).
Proof.
  unfold _camel_case_to_snake_case. split.
  - apply lstrip_no_upper, snake_join_no_upper.
  - intro r. apply lstrip_head.
Qed.

Lemma lower_ascii (c : ascii) :
  (nat_of_ascii c <? 128)%nat = true ->
  (nat_of_ascii (lower c) <? 128)%nat = true.
Proof.
  destruct c as [[] [] [] [] [] [] [] []]; vm_compute;
    solve [reflexivity | discriminate].
Qed.

Lemma snake_join_ascii (name : string) :
  isascii name = true -> isascii (snake_join name) = true.
Proof.
  induction name as [| c r IH]; simpl; [reflexivity |].
  intro H. apply andb_true_iff in H as [Hc Hr].
  destruct (isupper c); simpl.
  - now rewrite lower_ascii, IH.
  - now rewrite Hc, IH.
Qed.

Lemma lstrip_ascii (s : string) (c : ascii) :
  isascii s = true -> isascii (lstrip s c) = true.
Proof.
  induction s as [| x r IH]; simpl; [reflexivity |].
  intro H. destruct (x =? c)%char; [| exact H].
  apply andb_true_iff in H as [_ Hr]. now apply IH.
Qed.

(** X1. For an ASCII identifier, the derived name is ASCII, holds no
    uppercase letter and does not begin with an underscore;
    underscores at the front of the identifier are dropped, so an
    identifier and the same identifier behind an underscore derive the
    same name. *)
Theorem camel_case_to_snake_case_shape (name : string) :
  isascii name = true ->
  isascii (_camel_case_to_snake_case name) = true
  /\ any_upper (_camel_case_to_snake_case name) = false
  /\ (forall r, _camel_case_to_snake_case name <> String "_" r)
  /\ _camel_case_to_snake_case (String "_" name)
     = _camel_case_to_snake_case name.
Proof.
  intro Hascii.
  destruct (camel_case_to_snake_case_shape_aux name) as [Hup Hhead].
  split; [| split; [exact Hup | split; [exact Hhead | reflexivity]]].
  unfold _camel_case_to_snake_case.
  now apply lstrip_ascii, snake_join_ascii.
Qed.

Lemma camel_case_to_snake_case_shape_witness :
  isascii (_camel_case_to_snake_case "_HTTPServer2") = true
  /\ any_upper (_camel_case_to_snake_case "_HTTPServer2") = false
  /\ (forall r, _camel_case_to_snake_case "_HTTPServer2" <> String "_" r)
  /\ _camel_case_to_snake_case (String "_" "_HTTPServer2")
     = _camel_case_to_snake_case "_HTTPServer2".
Proof.
  apply (camel_case_to_snake_case_shape "_HTTPServer2").
  reflexivity.
Defined.

(** X2. On an ASCII identifier, deriving a name from the derived name
    changes nothing. *)
Theorem camel_case_to_snake_case_idempotent (name : string) :
  isascii name = true ->
  _camel_case_to_snake_case (_camel_case_to_snake_case name)
  = _camel_case_to_snake_case name.
Proof.
  intros _.
  destruct (camel_case_to_snake_case_shape_aux name) as [Hup Hhead].
  unfold _camel_case_to_snake_case at 1.
  rewrite snake_join_fixed by exact Hup.
  apply lstrip_fixed. exact Hhead.
Qed.

Lemma camel_case_to_snake_case_idempotent_witness :
  _camel_case_to_snake_case (_camel_case_to_snake_case "SetSensorPitch")
  = _camel_case_to_snake_case "SetSensorPitch".
Proof.
  apply (camel_case_to_snake_case_idempotent "SetSensorPitch").
  reflexivity.
Defined.

(** ** Reading the decoder backwards *)

Lemma eq_str_true (v : pyval) (s : string) :
  eq_str v s = true -> v = PStr s.
Proof.
  destruct v; simpl; try discriminate.
  intro H. apply String.eqb_eq in H. now subst.
Qed.

Lemma known_action_dec (v : pyval) :
  (exists cls, v = PStr (action_name cls))
  \/ (forall cls, v <> PStr (action_name cls)).
Proof.
  destruct (find (fun cls => eq_str v (action_name cls)) all_classes)
    as [cls |] eqn:E.
  - left. exists cls. apply find_some in E as [_ E]. now apply eq_str_true.
  - right. intros cls Heq.
    pose proof (find_none _ _ E cls (all_classes_complete cls)) as Hn.
    cbv beta in Hn. subst v. destruct cls; vm_compute in Hn; discriminate Hn.
Qed.

(** Open [object_hook] in the goal: no discriminator, an unknown one,
    or one goal for each class with its branch entered. *)
Ltac hook_cases obj :=
  unfold object_hook;
  let Hca := fresh "Hca" in
  destruct (contains obj "action") eqn:Hca; cbn [negb];
  [ let action := fresh "action" in
    let Hact := fresh "Hact" in
    let cls := fresh "cls" in
    let Hunk := fresh "Hunk" in
    destruct (contains_true_getitem _ _ Hca) as [action Hact];
    rewrite Hact; cbn [bind];
    destruct (known_action_dec action) as [[cls ->] | Hunk];
    [ destruct cls; dispatch | repeat rewrite eq_str_false by apply Hunk ]
  | ].

(** Split on every key the entered branch reads. *)
Ltac split_keys obj :=
  repeat (match goal with
          | |- context [getitem obj ?k] => on_key obj k
          end; on_tuple).

Ltac inv_leaf :=
  first
    [ discriminate
    | let H := fresh "H" in
      intro H; injection H as <-;
      eexists; split; [reflexivity |];
      split; [reflexivity |]; split; [reflexivity |]; split;
      [ let k := fresh "k" in
        let Hin := fresh "Hin" in
        intros k Hin; cbn [required_keys parameters In] in Hin;
        repeat (destruct Hin as [<- | Hin];
                [ eexists; split; [eassumption |];
                  split; [first [let Hs := fresh "Hs" in intro Hs; discriminate Hs
                               | intro; reflexivity]
                         | reflexivity]
                | ]);
        contradiction
      | let k := fresh "k" in
        let x := fresh "x" in
        let Hin := fresh "Hin" in
        let Heq := fresh "Heq" in
        intros k x Hin; cbn in Hin;
        repeat (destruct Hin as [Heq | Hin];
                [ injection Heq as <- <-; eexists; split; [reflexivity |];
                  first [let Hs := fresh "Hs" in intro Hs; discriminate Hs
                        | intro; eexists; reflexivity]
                | ]);
        contradiction ] ].

(** From a successful decoding back to the object it came from. *)
Lemma object_hook_Ok_inv (obj : pydict) (a : Action) :
  object_hook obj = Ok a ->
  exists cls,
    getitem obj "action" = Ok (PStr (action_name cls))
    /\ __class__ a = cls
    /\ map fst (__dict__ a) = "agent_id" :: assigned cls
    /\ (forall k, In k (required_keys cls) ->
          exists v, getitem obj k = Ok v
                    /\ (sequence_key k = true -> iterable v = true)
                    /\ getattr a k
                       = fmap Plain (if sequence_key k then tuple v else Ok v))
    /\ (forall k x, In (k, x) (__dict__ a) ->
          exists v, x = Plain v
                    /\ (sequence_key k = true -> exists l, v = PTuple l)).
Proof.
  hook_cases obj; try discriminate; split_keys obj.
  all: inv_leaf.
Qed.

(** ** Decoded instances and the round trip *)

Lemma json_object_getitem (obj : pydict) (k : string) (v : pyval) :
  json_object obj = obj -> getitem obj k = Ok v -> json_value v = v.
Proof.
  unfold json_object. induction obj as [| [k' w] r IH]; simpl; [discriminate |].
  intros Hst Hg. injection Hst as Hw Hr.
  destruct (k' =? k)%string; [injection Hg as <-; exact Hw | now apply IH].
Qed.

Ltac stable_values obj Hst :=
  repeat match goal with
    | Hg : getitem obj _ = Ok _ |- _ =>
        apply (json_object_getitem _ _ _ Hst) in Hg; cbn [json_value] in Hg
    end;
  repeat match goal with
    | H : PList _ = PList _ |- _ => injection H as H
    | H : PList _ = PTuple _ |- _ => discriminate H
    end.

Lemma json_value_chars (s : string) : map json_value (chars s) = chars s.
Proof. induction s as [| c r IH]; simpl; [reflexivity | now rewrite IH]. Qed.

(** Forget that a tuple was made of the characters of a string, but
    for the fact that the text form leaves its elements alone. *)
Ltac forget_chars :=
  repeat match goal with
    | |- context [chars ?s] =>
        let l := fresh "l" in
        let E := fresh "E" in
        pose proof (json_value_chars s);
        remember (chars s) as l eqn:E; clear E
    end.

Ltac fixed_leaf obj :=
  first
    [ discriminate
    | forget_chars;
      let H := fresh "H" in
      let Hst := fresh "Hst" in
      intro H; injection H as <-;
      split; [vm_compute; reflexivity |];
      intro Hst; stable_values obj Hst;
      repeat match goal with
        | Hs : json_value _ = _ |- _ => vm_compute in Hs; revert Hs
        | Hs : map json_value _ = _ |- _ => vm_compute in Hs; revert Hs
        end;
      vm_compute; intros;
      repeat match goal with
        | Hs : _ = _ |- _ => rewrite Hs; clear Hs
        end;
      reflexivity ].

(** X8. An instance returned by the decoder survives a round trip
    unchanged: encoding it and decoding the result gives the same
    instance back.  The same holds through the text form when the
    object came out of the parser, which produces no tuples. *)
Theorem object_hook_fixed_point (obj : pydict) (a : Action) :
  object_hook obj = Ok a ->
  decode_encode a = Ok a
  /\ (json_object obj = obj -> decode_encode_text a = Ok a).
Proof.
  hook_cases obj; try discriminate; split_keys obj.
  all: fixed_leaf obj.
Qed.

Lemma object_hook_fixed_point_witness :
  decode_encode
    (MoveTangentially__init__ (of_str "a") (of_float 1.5)
       (of_vector (0, 1, 0)%float))
  = Ok (MoveTangentially__init__ (of_str "a") (of_float 1.5)
          (of_vector (0, 1, 0)%float))
  /\ (json_object
        [("action", PStr "move_tangentially"); ("agent_id", PStr "a");
         ("distance", PFloat 1.5);
         ("direction", PList [PFloat 0; PFloat 1; PFloat 0])]
      = [("action", PStr "move_tangentially"); ("agent_id", PStr "a");
         ("distance", PFloat 1.5);
         ("direction", PList [PFloat 0; PFloat 1; PFloat 0])] ->
      decode_encode_text
        (MoveTangentially__init__ (of_str "a") (of_float 1.5)
           (of_vector (0, 1, 0)%float))
      = Ok (MoveTangentially__init__ (of_str "a") (of_float 1.5)
              (of_vector (0, 1, 0)%float))).
Proof.
  apply (object_hook_fixed_point
           [("action", PStr "move_tangentially"); ("agent_id", PStr "a");
            ("distance", PFloat 1.5);
            ("direction", PList [PFloat 0; PFloat 1; PFloat 0])]).
  reflexivity.
Defined.

(** ** What the decoder returns *)

(** X4. When decoding succeeds, the ["action"] member of the object
    is the name of the instance returned, the attributes of the
    instance are [agent_id] and the fields of its class, each one
    holds the value found under its key (under a sequence key, the
    tuple made of it), no attribute is an array, and every sequence
    attribute is a tuple. *)
Theorem object_hook_postcondition (obj : pydict) (a : Action) :
  object_hook obj = Ok a ->
  getitem obj "action" = Ok (PStr (name a))
  /\ map fst (__dict__ a) = "agent_id" :: assigned (__class__ a)
  /\ (forall k, In k (required_keys (__class__ a)) ->
        exists v, getitem obj k = Ok v
                  /\ getattr a k
                     = fmap Plain (if sequence_key k then tuple v else Ok v))
  /\ (forall k x, In (k, x) (__dict__ a) ->
        exists v, x = Plain v
                  /\ (sequence_key k = true -> exists l, v = PTuple l)).
Proof.
  intro H.
  destruct (object_hook_Ok_inv obj a H)
    as [cls [Hact [Hcls [Hkeys [Hreq Hattr]]]]].
  subst cls. unfold name.
  split; [exact Hact |]. split; [exact Hkeys |]. split; [| exact Hattr].
  intros k Hin. destruct (Hreq k Hin) as [v [Hv [_ Hget]]].
  exists v. now split.
Qed.

Lemma object_hook_postcondition_witness :
  getitem [("action", PStr "set_sensor_rotation"); ("agent_id", PStr "a");
           ("rotation_quat", PList [PFloat 1; PFloat 0; PFloat 0; PFloat 0])]
    "action"
  = Ok (PStr (name (SetSensorRotation__init__ (of_str "a")
                      (of_quaternion (1, 0, 0, 0)%float))))
  /\ getattr (SetSensorRotation__init__ (of_str "a")
                (of_quaternion (1, 0, 0, 0)%float)) "rotation_quat"
     = Ok (Plain (PTuple [PFloat 1; PFloat 0; PFloat 0; PFloat 0])).
Proof.
  destruct (object_hook_postcondition
              [("action", PStr "set_sensor_rotation"); ("agent_id", PStr "a");
               ("rotation_quat",
                PList [PFloat 1; PFloat 0; PFloat 0; PFloat 0])]
              (SetSensorRotation__init__ (of_str "a")
                 (of_quaternion (1, 0, 0, 0)%float)))
    as [Hname _].
  - reflexivity.
  - split; [exact Hname | reflexivity].
Defined.

(** X5. The objects the decoder accepts are exactly those whose
    ["action"] member names a class, which hold every key that class
    requires, and whose values under sequence keys are iterable. *)
Theorem object_hook_accepts_iff (obj : pydict) :
  (exists a, object_hook obj = Ok a)
  <-> exists cls,
        getitem obj "action" = Ok (PStr (action_name cls))
        /\ (forall k, In k (required_keys cls) ->
              exists v, getitem obj k = Ok v
                        /\ (sequence_key k = true -> iterable v = true)).
Proof.
  split.
  - intros [a H].
    destruct (object_hook_Ok_inv obj a H) as [cls [Hact [_ [_ [Hreq _]]]]].
    exists cls. split; [exact Hact |].
    intros k Hin. destruct (Hreq k Hin) as [v [Hv [Hit _]]].
    exists v. now split.
  - intros [cls [Hact Hreq]].
    destruct (object_hook_builds cls obj Hact Hreq) as [a [Ha _]].
    now exists a.
Qed.

Ltac error_leaf :=
  first
    [ discriminate
    | let H := fresh "H" in
      intro H; injection H as <-;
      right; right; eexists; eexists;
      split; [reflexivity |];
      split;
      [ | first
            [ left; split; [| reflexivity]; eassumption
            | right; eexists;
              split; [| split; [| split; [| reflexivity]]];
              [eassumption | reflexivity | reflexivity] ] ];
      cbn [required_keys parameters In]; tauto ].

(** X6. The decoder raises nothing but: the malformed-input error,
    when ["action"] is absent; the unknown-action error, carrying the
    value, when it names no class; [KeyError] on a required key of the
    named class that is absent; [TypeError] on a value under a required
    sequence key of the named class that is not iterable. *)
Theorem object_hook_errors (obj : pydict) (e : exn) :
  object_hook obj = Raise e ->
  (contains obj "action" = false /\ e = ValueError MissingActionKey)
  \/ (exists action,
        getitem obj "action" = Ok action
        /\ (forall cls, action <> PStr (action_name cls))
        /\ e = ValueError (UnknownAction action))
  \/ (exists cls k,
        getitem obj "action" = Ok (PStr (action_name cls))
        /\ In k (required_keys cls)
        /\ ((contains obj k = false /\ e = KeyError k)
            \/ (exists v,
                  getitem obj k = Ok v
                  /\ sequence_key k = true
                  /\ iterable v = false
                  /\ e = TypeError (NotIterable v)))).
Proof.
  hook_cases obj.
  1-14: split_keys obj; error_leaf.
  - intro H. injection H as <-. right; left.
    exists action. now repeat split.
  - intro H. injection H as <-. now left.
Qed.

Lemma object_hook_errors_witness :
  (contains [("action", PStr "set_sensor_rotation"); ("agent_id", PStr "a");
             ("rotation_quat", PInt 5)] "action" = false
   /\ TypeError (NotIterable (PInt 5)) = ValueError MissingActionKey)
  \/ (exists action,
        getitem [("action", PStr "set_sensor_rotation"); ("agent_id", PStr "a");
                 ("rotation_quat", PInt 5)] "action" = Ok action
        /\ (forall cls, action <> PStr (action_name cls))
        /\ TypeError (NotIterable (PInt 5)) = ValueError (UnknownAction action))
  \/ (exists cls k,
        getitem [("action", PStr "set_sensor_rotation"); ("agent_id", PStr "a");
                 ("rotation_quat", PInt 5)] "action"
        = Ok (PStr (action_name cls))
        /\ In k (required_keys cls)
        /\ ((contains [("action", PStr "set_sensor_rotation");
                       ("agent_id", PStr "a"); ("rotation_quat", PInt 5)] k
             = false
             /\ TypeError (NotIterable (PInt 5)) = KeyError k)
            \/ (exists v,
                  getitem [("action", PStr "set_sensor_rotation");
                           ("agent_id", PStr "a"); ("rotation_quat", PInt 5)] k
                  = Ok v
                  /\ sequence_key k = true
                  /\ iterable v = false
                  /\ TypeError (NotIterable (PInt 5))
                     = TypeError (NotIterable v)))).
Proof.
  apply (object_hook_errors
           [("action", PStr "set_sensor_rotation"); ("agent_id", PStr "a");
            ("rotation_quat", PInt 5)]).
  reflexivity.
Defined.

(** ** Routing to the collaborators *)

Lemma sample_by_name {R : Type} (cls : action_class) (agent_id : attr)
    (sampler : string -> attr -> R) :
  sample cls agent_id sampler
  = sampler ("sample_" ++ action_name cls)%string agent_id.
Proof. destruct cls; reflexivity. Qed.

Lemma act_by_name {R : Type} (self : Action) (actuator : string -> Action -> R) :
  act self actuator = actuator ("actuate_" ++ name self)%string self.
Proof. destruct self as [[] d]; reflexivity. Qed.

(** X3. [sample] on a class calls the sampler's method named
    ["sample_"] followed by the class's action name, with the agent
    identifier; [act] on an instance calls the actuator's method named
    ["actuate_"] followed by the instance's name, with the instance
    itself.  So the method names follow the derived names, for all
    fourteen classes. *)
Theorem sample_act_by_name {R : Type} :
  (forall cls agent_id (sampler : string -> attr -> R),
      sample cls agent_id sampler
      = sampler ("sample_" ++ action_name cls)%string agent_id)
  /\ (forall self (actuator : string -> Action -> R),
      act self actuator = actuator ("actuate_" ++ name self)%string self).
Proof. split; [exact sample_by_name | exact act_by_name]. Qed.

(** X11. Acting with a decoded instance calls the actuator method
    named after the ["action"] member of the object it was decoded
    from. *)
Theorem act_decoded {R : Type} (obj : pydict) (a : Action) (s : string)
    (actuator : string -> Action -> R) :
  object_hook obj = Ok a ->
  getitem obj "action" = Ok (PStr s) ->
  act a actuator = actuator ("actuate_" ++ s)%string a.
Proof.
  intros H Hs.
  destruct (object_hook_Ok_inv obj a H) as [cls [Hact [Hcls _]]].
  rewrite Hact in Hs. injection Hs as <-. subst cls.
  apply act_by_name.
Qed.

Lemma act_decoded_witness :
  act (TurnLeft__init__ (of_str "a") (of_float 10)) (fun method _ => method)
  = "actuate_turn_left".
Proof.
  apply (act_decoded
           [("action", PStr "turn_left"); ("agent_id", PStr "a");
            ("rotation_degrees", PFloat 10)]
           (TurnLeft__init__ (of_str "a") (of_float 10))
           "turn_left" (fun method _ => method)).
  - reflexivity.
  - reflexivity.
Defined.

(** ** Member order *)

Section Lookups.
Context {V : Type}.

Lemma getitem_Raise (d : dictionary V) (key : string) (e : exn) :
  getitem d key = Raise e -> e = KeyError key.
Proof.
  induction d as [| [k v] r IH]; simpl.
  - intro H. now injection H.
  - destruct (k =? key)%string; [discriminate | exact IH].
Qed.

Lemma contains_as_getitem (d : dictionary V) (key : string) :
  contains d key = match getitem d key with Ok _ => true | Raise _ => false end.
Proof.
  induction d as [| [k v] r IH]; simpl; [reflexivity |].
  destruct (k =? key)%string; [reflexivity | exact IH].
Qed.

Lemma getitem_not_In (d : dictionary V) (key : string) :
  ~ In key (map fst d) -> getitem d key = Raise (KeyError key).
Proof.
  intro H. apply contains_false_getitem. now apply contains_not_In.
Qed.

Lemma getitem_Permutation (d d' : dictionary V) (key : string) :
  Permutation d d' -> NoDup (map fst d) -> getitem d key = getitem d' key.
Proof.
  induction 1 as [| [k v] r r' Hp IH | [k1 v1] [k2 v2] r | r1 r2 r3 H1 IH1 H2 IH2];
    intro Hnd.
  - reflexivity.
  - simpl. inversion Hnd; subst. now rewrite IH.
  - simpl. inversion Hnd as [| ? ? Hnot _]; subst.
    destruct (String.eqb_spec k1 key) as [-> | _];
      destruct (String.eqb_spec k2 key) as [-> | _]; try reflexivity.
    exfalso. apply Hnot. now left.
  - rewrite IH1 by exact Hnd. apply IH2.
    apply (Permutation_NoDup (Permutation_map fst H1) Hnd).
Qed.

End Lookups.

Lemma object_hook_lookups (obj obj' : pydict) :
  (forall k, getitem obj k = getitem obj' k) ->
  object_hook obj = object_hook obj'.
Proof.
  intro H. unfold object_hook.
  rewrite !contains_as_getitem, !H. reflexivity.
Qed.

(** X7. The order of the members of an object does not matter to the
    decoder: two objects with distinct keys that hold the same members
    decode alike, to the same instance or to the same error. *)
Theorem object_hook_member_order (obj obj' : pydict) :
  Permutation obj obj' ->
  NoDup (map fst obj) ->
  object_hook obj = object_hook obj'.
Proof.
  intros Hp Hnd. apply object_hook_lookups.
  intro k. now apply getitem_Permutation.
Qed.

Lemma object_hook_member_order_witness :
  object_hook [("distance", PFloat 1.5); ("action", PStr "move_forward");
               ("agent_id", PStr "a")]
  = object_hook [("action", PStr "move_forward"); ("distance", PFloat 1.5);
                 ("agent_id", PStr "a")].
Proof.
  apply (object_hook_member_order
           [("distance", PFloat 1.5); ("action", PStr "move_forward");
            ("agent_id", PStr "a")]
           [("action", PStr "move_forward"); ("distance", PFloat 1.5);
            ("agent_id", PStr "a")]).
  - apply perm_swap.
  - repeat constructor; simpl; intuition discriminate.
Defined.

(** ** The encoder on any instance *)

Section Stores.
Context {V : Type}.

Lemma getitem_setitem (d : dictionary V) (key : string) (value : V) (k : string) :
  getitem (setitem d key value) k
  = if (key =? k)%string then Ok value else getitem d k.
Proof.
  induction d as [| [k' v] r IH]; simpl; [reflexivity |].
  destruct (String.eqb_spec k' key) as [-> | Hne]; simpl.
  - destruct (key =? k)%string; reflexivity.
  - rewrite IH. destruct (String.eqb_spec k' k) as [-> | _]; [| reflexivity].
    destruct (String.eqb_spec key k) as [-> | _]; [contradiction | reflexivity].
Qed.

Lemma getitem_app (d1 d2 : dictionary V) (k : string) :
  getitem (d1 ++ d2) k
  = match getitem d1 k with Ok v => Ok v | Raise _ => getitem d2 k end.
Proof.
  induction d1 as [| [k' v] r IH]; simpl; [reflexivity |].
  destruct (k' =? k)%string; [reflexivity | exact IH].
Qed.

Lemma getitem_rev (d : dictionary V) (k : string) :
  NoDup (map fst d) -> getitem (rev d) k = getitem d k.
Proof.
  induction d as [| [k' v] r IH]; simpl; [reflexivity |].
  intro Hnd. inversion Hnd as [| ? ? Hnot Hr]; subst.
  rewrite getitem_app, IH by exact Hr. simpl.
  destruct (String.eqb_spec k' k) as [-> | _].
  - now rewrite getitem_not_In.
  - destruct (getitem r k) as [w | e] eqn:E; [reflexivity |].
    now rewrite (getitem_Raise _ _ _ E).
Qed.

Lemma setitem_keys (d : dictionary V) (key : string) (value : V) :
  map fst (setitem d key value)
  = if contains d key then map fst d else map fst d ++ [key].
Proof.
  induction d as [| [k v] r IH]; simpl; [reflexivity |].
  destruct (String.eqb_spec k key) as [-> | _]; simpl; [reflexivity |].
  rewrite IH. now destruct (contains r key).
Qed.

Lemma setitem_NoDup (d : dictionary V) (key : string) (value : V) :
  NoDup (map fst d) -> NoDup (map fst (setitem d key value)).
Proof.
  intro H. rewrite setitem_keys.
  destruct (contains d key) eqn:E; [exact H |].
  apply NoDup_app; [exact H | repeat constructor; simpl; tauto |].
  intros x Hx [<- | []].
  apply contains_In in Hx. congruence.
Qed.

Lemma getitem_filter_name (d : dictionary V) (k : string) :
  getitem (filter (fun kv => negb (fst kv =? "name")) d) k
  = if (k =? "name")%string then Raise (KeyError k) else getitem d k.
Proof.
  induction d as [| [k' v] r IH]; simpl.
  - now destruct (k =? "name")%string.
  - destruct (String.eqb_spec k' "name") as [Hk' | Hk']; simpl; rewrite IH.
    + destruct (String.eqb_spec k "name") as [Hk | Hk]; [reflexivity |].
      destruct (String.eqb_spec k' k) as [E | _]; [congruence | reflexivity].
    + destruct (String.eqb_spec k' k) as [E | _]; [| reflexivity].
      destruct (String.eqb_spec k "name") as [Hk | _];
        [congruence | reflexivity].
Qed.

Lemma filter_keys_NoDup (p : string * V -> bool) (d : dictionary V) :
  NoDup (map fst d) -> NoDup (map fst (filter p d)).
Proof.
  induction d as [| kv r IH]; simpl; [trivial |].
  intro H. inversion H as [| ? ? Hnot Hr]; subst.
  destruct (p kv); simpl; [| now apply IH].
  constructor; [| now apply IH].
  intro Hin. apply Hnot.
  apply in_map_iff in Hin as [x [Hx Hin]].
  apply filter_In in Hin as [Hin _].
  apply in_map_iff. now exists x.
Qed.

End Stores.

Lemma getitem_fold_setitem {V W : Type} (f : V -> W)
    (l : dictionary V) (acc : dictionary W) (k : string) :
  getitem (fold_left (fun o kv => setitem o (fst kv) (f (snd kv))) l acc) k
  = match getitem (rev l) k with
    | Ok v => Ok (f v)
    | Raise _ => getitem acc k
    end.
Proof.
  revert acc. induction l as [| [k' v] r IH]; intro acc; simpl; [reflexivity |].
  rewrite IH, getitem_setitem, getitem_app. simpl.
  destruct (getitem (rev r) k); [reflexivity |].
  destruct (k' =? k)%string; reflexivity.
Qed.

Lemma fold_setitem_NoDup {V W : Type} (f : V -> W)
    (l : dictionary V) (acc : dictionary W) :
  NoDup (map fst acc) ->
  NoDup (map fst (fold_left (fun o kv => setitem o (fst kv) (f (snd kv))) l acc)).
Proof.
  revert acc. induction l as [| kv r IH]; intros acc H; simpl; [exact H |].
  apply IH. now apply setitem_NoDup.
Qed.

Lemma getitem_dict {V : Type} (l : list (string * V)) (k : string) :
  getitem (dict l) k = getitem (rev l) k.
Proof.
  unfold dict. rewrite (getitem_fold_setitem (fun v => v)). simpl.
  destruct (getitem (rev l) k) as [v | e] eqn:E; [reflexivity |].
  now rewrite (getitem_Raise _ _ _ E).
Qed.

(** X10. The encoder on any instance with distinct attribute names,
    none of them [keys] (an attribute of that name makes [dict] take
    the instance for a mapping), read key by key: there is never a
    ["name"] member; a member under
    any other key holds the value of the attribute of that name, an
    array replaced by its list; ["action"] holds the derived name only
    when the instance has no attribute called [action], which would
    take its place; no other key is present. *)
Theorem default_lookup (a : Action) :
  NoDup (map fst (__dict__ a)) ->
  ~ In "keys" (map fst (__dict__ a)) ->
  exists o,
    default (Obj a) = Ok o
    /\ forall k,
         getitem o k
         = if (k =? "name")%string then Raise (KeyError k)
           else match getattr a k with
                | Ok v => Ok (encoded v)
                | Raise _ =>
                    if (k =? "action")%string then Ok (PStr (name a))
                    else Raise (KeyError k)
                end.
Proof.
  intros Hnd _. eexists. split; [reflexivity |].
  intro k. unfold items.
  rewrite (fold_left_pointwise _ _ _ _ default_step).
  rewrite (getitem_fold_setitem encoded). cbn [getitem].
  rewrite getitem_rev
    by (unfold dict; apply (fold_setitem_NoDup (fun v => v)); constructor).
  rewrite getitem_dict. unfold __iter__, items. cbn [rev].
  rewrite getitem_app, getitem_rev by (now apply filter_keys_NoDup).
  rewrite getitem_filter_name. unfold getattr. cbn [getitem].
  destruct (String.eqb_spec k "name") as [-> | Hname]; [reflexivity |].
  destruct (getitem (__dict__ a) k) as [v | e]; [reflexivity |].
  destruct (String.eqb_spec "action" k) as [<- | Hact]; [reflexivity |].
  destruct (String.eqb_spec k "action") as [-> | _]; [contradiction | reflexivity].
Qed.

Lemma default_lookup_witness :
  exists o,
    default (Obj (setattr (MoveForward__init__ (of_str "a") (of_float 1.5))
                    "action" (Plain (PInt 7)))) = Ok o
    /\ getitem o "action" = Ok (PInt 7)
    /\ getitem o "distance" = Ok (PFloat 1.5).
Proof.
  destruct (default_lookup
              (setattr (MoveForward__init__ (of_str "a") (of_float 1.5))
                 "action" (Plain (PInt 7)))) as [o [Ho Hk]].
  - repeat constructor; simpl; intuition discriminate.
  - simpl; intuition discriminate.
  - exists o. split; [exact Ho |].
    split; [exact (Hk "action") | exact (Hk "distance")].
Defined.

(** ** What a round trip does to each attribute *)

Lemma action_name_inj (c1 c2 : action_class) :
  action_name c1 = action_name c2 -> c1 = c2.
Proof.
  destruct c1, c2; intro H;
    solve [reflexivity | vm_compute in H; discriminate H].
Qed.

Lemma assigned_parameters (cls : action_class) (k : string) :
  In k (assigned cls) -> In k (parameters cls).
Proof. destruct cls; simpl; tauto. Qed.

Lemma getitem_map_values {V W : Type} (f : V -> W) (d : dictionary V) (k : string) :
  getitem (map (fun kv => (fst kv, f (snd kv))) d) k = fmap f (getitem d k).
Proof.
  induction d as [| [k' v] r IH]; simpl; [reflexivity |].
  destruct (k' =? k)%string; [reflexivity | exact IH].
Qed.

(** X9. What a round trip does to an instance built by a constructor,
    whatever its arguments: when decoding its encoding succeeds, the
    result has the same class, and each attribute comes back as the
    value the encoder stored for it (an array as its list), made into a
    tuple under a sequence key.  So arrays and lists given for a
    direction, a location or a rotation come back as tuples. *)
Theorem decode_encode_attributes (a a' : Action) :
  constructed a ->
  decode_encode a = Ok a' ->
  __class__ a' = __class__ a
  /\ (forall k, In k ("agent_id" :: assigned (__class__ a)) ->
        exists v,
          getattr a k = Ok v
          /\ getattr a' k
             = fmap Plain (if sequence_key k then tuple (encoded v)
                           else Ok (encoded v))).
Proof.
  intros Hc H. unfold decode_encode in H.
  pose proof (constructed_keys a Hc) as Hkeys.
  pose proof (assigned_NoDup (__class__ a)) as Hnd.
  inversion Hnd as [| ? ? Hact Hnd1]; subst.
  inversion Hnd1 as [| ? ? Hname Hnd2]; subst.
  rewrite default_Obj in H; rewrite ?Hkeys; trivial;
    [| intro Hin; apply Hact; now right].
  cbn [bind] in H.
  destruct (object_hook_Ok_inv _ _ H) as [cls [Hdisc [Hcls [_ [Hreq _]]]]].
  cbn [getitem String.eqb Ascii.eqb Bool.eqb] in Hdisc.
  injection Hdisc as Hdisc. apply action_name_inj in Hdisc. subst cls.
  split; [congruence |].
  intros k Hin.
  assert (Hk : In k (map fst (__dict__ a))) by now rewrite Hkeys.
  apply contains_In in Hk. destruct (contains_true_getitem _ _ Hk) as [v Hv].
  exists v. split; [exact Hv |].
  assert (Hne : ("action" =? k)%string = false).
  { destruct (String.eqb_spec "action" k) as [<- | _]; [| reflexivity].
    exfalso. apply Hact. now right. }
  assert (Hin' : In k (required_keys (__class__ a))).
  { destruct Hin as [<- | Hin]; [now left | right].
    now apply assigned_parameters. }
  destruct (Hreq k Hin') as [w [Hw [_ Hget]]].
  cbn [getitem] in Hw. rewrite Hne, getitem_map_values in Hw.
  unfold getattr in Hv. rewrite Hv in Hw. cbn in Hw. injection Hw as <-.
  exact Hget.
Qed.

Lemma decode_encode_attributes_witness :
  __class__ (SetSensorRotation__init__ (of_str "a")
               (of_quaternion (1, 0, 0, 0)%float))
  = __class__ (SetSensorRotation__init__ (of_str "a")
                 (Ndarray (PList [PFloat 1; PFloat 0; PFloat 0; PFloat 0])))
  /\ (forall k,
        In k ("agent_id"
                :: assigned
                     (__class__
                        (SetSensorRotation__init__ (of_str "a")
                           (Ndarray
                              (PList [PFloat 1; PFloat 0; PFloat 0; PFloat 0])))))
        ->
        exists v,
          getattr (SetSensorRotation__init__ (of_str "a")
                     (Ndarray (PList [PFloat 1; PFloat 0; PFloat 0; PFloat 0])))
            k = Ok v
          /\ getattr (SetSensorRotation__init__ (of_str "a")
                        (of_quaternion (1, 0, 0, 0)%float)) k
             = fmap Plain (if sequence_key k then tuple (encoded v)
                           else Ok (encoded v))).
Proof.
  apply (decode_encode_attributes
           (SetSensorRotation__init__ (of_str "a")
              (Ndarray (PList [PFloat 1; PFloat 0; PFloat 0; PFloat 0])))
           (SetSensorRotation__init__ (of_str "a")
              (of_quaternion (1, 0, 0, 0)%float))).
  - apply c_SetSensorRotation.
  - reflexivity.
Defined.
